(** * Perspectivology engine: the backend of [src/backend/server.js]

    A shallow embedding of the Express server: the expert directory cache
    ([fetchExpertDatabase]), the model gateway ([callClaude]) and the three
    phase handlers, followed by the properties of the specification that are
    checked against them.

    JavaScript strings are sequences of UTF-16 code units, numbers are IEEE
    binary64 values, objects are finite maps from property names to values.
    The clock, the network, the console and the built-ins [JSON.parse] and
    [Number::toString] belong to the host and are taken from a [host]
    record; every call to the clock, the network or the console is recorded
    in the trace of the run. *)

From Stdlib Require Import ZArith NArith List String Ascii Bool Lia DecimalString.
From Stdlib Require Import SpecFloat.
From stdpp Require Import gmap list.

Local Open Scope Z_scope.

(** ** Strings *)

(** A JavaScript string: its UTF-16 code units. *)
Abbreviation jsstring := (list N).

Module JsString.

(** Decoding of the UTF-8 bytes of a literal of this file into code units:
    one-, two- and three-byte sequences, which cover the Basic Multilingual
    Plane; the literals below need nothing else, and any other byte is kept
    as it is. *)
Fixpoint utf8 (bs : list N) : jsstring :=
  match bs with
  | [] => []
  | b0 :: r0 =>
      if ((192 <=? b0) && (b0 <? 224))%N then
        match r0 with
        | b1 :: r1 => ((b0 - 192) * 64 + (b1 - 128))%N :: utf8 r1
        | [] => [b0]
        end
      else if ((224 <=? b0) && (b0 <? 240))%N then
        match r0 with
        | b1 :: b2 :: r2 =>
            ((b0 - 224) * 4096 + (b1 - 128) * 64 + (b2 - 128))%N :: utf8 r2
        | _ => b0 :: r0
        end
      else b0 :: utf8 r0
  end.

Definition bytes (s : string) : list N :=
  List.map N_of_ascii (list_ascii_of_string s).

(** [str "abc"] is the JavaScript string ['abc']. *)
Definition str (s : string) : jsstring := utf8 (bytes s).

(** [tpl] reads the text of a template literal of the source: the same as
    [str], except that a backtick of the literal here stands for the double
    quote of the source (a template literal cannot contain a bare backtick,
    so the reading is unambiguous). *)
Definition tpl (s : string) : jsstring :=
  List.map (fun c => if (c =? 96)%N then 34%N else c) (str s).

Definition eqb (s t : jsstring) : bool := bool_decide (s = t).

(** WhiteSpace and LineTerminator code points of ECMAScript, the ones
    [String.prototype.trim] and [parseInt] strip: TAB, LF, VT, FF, CR, SP,
    NBSP, U+1680, U+2000..U+200A, U+2028, U+2029, U+202F, U+205F, U+3000 and
    U+FEFF. *)
Definition is_whitespace (c : N) : bool :=
  ((9 <=? c) && (c <=? 13) || (c =? 32) || (c =? 160) || (c =? 5760)
   || (8192 <=? c) && (c <=? 8202) || (c =? 8232) || (c =? 8233)
   || (c =? 8239) || (c =? 8287) || (c =? 12288) || (c =? 65279))%N.

Fixpoint trimStart (s : jsstring) : jsstring :=
  match s with
  | c :: r => if is_whitespace c then trimStart r else s
  | [] => []
  end.

Definition trimEnd (s : jsstring) : jsstring := rev (trimStart (rev s)).

(** [s.trim()] *)
Definition trim (s : jsstring) : jsstring := trimEnd (trimStart s).

(** [s.split(sep)] for a separator of one code unit: the pieces between
    the occurrences of [sep], in order; never the empty list. *)
Fixpoint split (sep : N) (s : jsstring) : list jsstring :=
  match s with
  | [] => [[]]
  | c :: r =>
      if (c =? sep)%N then [] :: split sep r
      else match split sep r with
           | h :: t => (c :: h) :: t
           | [] => [[c]]
           end
  end.

(** [pieces.join(sep)] on strings. *)
Fixpoint join (sep : jsstring) (pieces : list jsstring) : jsstring :=
  match pieces with
  | [] => []
  | [p] => p
  | p :: rest => p ++ sep ++ join sep rest
  end.

(** A string is truthy when it is not empty. *)
Definition truthy (s : jsstring) : bool :=
  match s with [] => false | _ => true end.

(** The decimal digits of a natural number, as array indices print. *)
Definition of_nat (n : nat) : jsstring :=
  bytes (NilEmpty.string_of_uint (Nat.to_uint n)).

End JsString.

Import JsString.

Definition LF : N := 10.
Definition COMMA : N := 44.

(** ** [parseInt] *)

Module ParseInt.

(** The value of a code unit as a digit of the given radix, if it is one. *)
Definition digit (radix : Z) (c : N) : option Z :=
  let v := if ((48 <=? c) && (c <=? 57))%N then Some (Z.of_N c - 48)
           else if ((97 <=? c) && (c <=? 122))%N then Some (Z.of_N c - 87)
           else if ((65 <=? c) && (c <=? 90))%N then Some (Z.of_N c - 55)
           else None in
  match v with
  | Some d => if d <? radix then Some d else None
  | None => None
  end.

(** The digits at the front of [s], up to the first code unit that is not a
    digit of the radix. *)
Fixpoint digits (radix : Z) (s : jsstring) : list Z :=
  match s with
  | c :: r => match digit radix c with
              | Some d => d :: digits radix r
              | None => []
              end
  | [] => []
  end.

Definition number (radix : Z) (ds : list Z) : Z :=
  fold_left (fun acc d => acc * radix + d) ds 0.

(** [parseInt(s)] with no radix argument: [None] is NaN, [Some z] the
    mathematical integer read (leading white space skipped, an optional
    sign, an optional [0x] or [0X] prefix selecting radix 16, then the
    longest run of digits; NaN when that run is empty).  The Number that
    JavaScript returns is the double nearest to [z]. *)
Definition parseInt (s : jsstring) : option Z :=
  let s1 := trimStart s in
  let '(sign, s2) :=
    match s1 with
    | 45%N :: r => (-1, r)
    | 43%N :: r => (1, r)
    | _ => (1, s1)
    end in
  let '(radix, s3) :=
    match s2 with
    | 48%N :: 120%N :: r => (16, r)
    | 48%N :: 88%N :: r => (16, r)
    | _ => (10, s2)
    end in
  match digits radix s3 with
  | [] => None
  | ds => Some (sign * number radix ds)
  end.

End ParseInt.

Import ParseInt.

(** ** Expert records and the CSV feed *)

(** An expert record, as the object literal of [fetchExpertDatabase] builds
    it.  [status] is the integer that [parseInt(values[7]) || 0] denotes;
    the Number stored by the source is the double nearest to it, which is
    zero exactly when the integer is, and the source only ever compares it
    with zero. *)
Record expert := {
  firstName : jsstring;
  lastName : jsstring;
  years : jsstring;
  field1 : jsstring;
  field2 : jsstring;
  descriptor : jsstring;
  field3 : jsstring;
  status : Z;
  gender : jsstring;
  geography : jsstring;
  recognizable : jsstring
}.

(** [values[i]?.trim() || dflt] *)
Definition column (values : list jsstring) (i : nat) (dflt : jsstring) : jsstring :=
  match values !! i with
  | Some v => if truthy (trim v) then trim v else dflt
  | None => dflt
  end.

(** [parseInt(values[i]) || 0]: an absent column is [undefined], which
    [parseInt] reads as the text ['undefined']; NaN and zero are falsy. *)
Definition column_int (values : list jsstring) (i : nat) : Z :=
  let arg := match values !! i with
             | Some v => v
             | None => str "undefined"
             end in
  match parseInt arg with
  | Some z => if z =? 0 then 0 else z
  | None => 0
  end.

Definition expert_of_values (values : list jsstring) : expert :=
  {| firstName := column values 1 [];
     lastName := column values 0 [];
     years := column values 2 [];
     field1 := column values 3 [];
     field2 := column values 4 [];
     descriptor := column values 5 [];
     field3 := column values 6 [];
     status := column_int values 7;
     gender := column values 8 [];
     geography := column values 9 [];
     recognizable := column values 10 (str "No") |}.

(** [expert.firstName && expert.status === 0] *)
Definition available (e : expert) : bool :=
  truthy (firstName e) && (status e =? 0).

(** ** Values *)

(** A JavaScript number. *)
Abbreviation number := spec_float.

(** The Number of an integer: the nearest binary64 value. *)
Definition number_of_Z (z : Z) : number := binary_normalize 53 1024 z 0 false.

(** The values that reach the handlers: what [JSON.parse] produces (request
    bodies, model output, response data of the HTTP client), and
    [undefined]. *)
#[warnings="-register-all"]
Inductive value :=
| VUndefined
| VNull
| VBool (b : bool)
| VNum (x : number)
| VStr (s : jsstring)
| VArr (elems : list value)
| VObj (props : gmap jsstring value).

Definition num (z : Z) : value := VNum (number_of_Z z).

(** A thrown error object: [error.message], and [error.response?.data]
    ([undefined] unless the HTTP client attached a response). *)
Record js_error := {
  err_message : jsstring;
  err_response_data : value
}.

(** An error raised by the language itself; the wording of the message is
    the engine's. *)
Definition TypeError (message : jsstring) : js_error :=
  {| err_message := message; err_response_data := VUndefined |}.

(** How an evaluation ends: with a value, or with a thrown error. *)
Inductive completion (A : Type) :=
| Normal (a : A)
| Throw (e : js_error).
Arguments Normal {A} a.
Arguments Throw {A} e.

#[export] Instance completion_ret : MRet completion := fun A a => Normal a.

#[export] Instance completion_bind : MBind completion := fun A B k c =>
  match c with
  | Normal a => k a
  | Throw e => Throw e
  end.

Module Js.

(** ToBoolean *)
Definition truthy (v : value) : bool :=
  match v with
  | VUndefined | VNull => false
  | VBool b => b
  | VNum (S754_zero _) | VNum S754_nan => false
  | VNum _ => true
  | VStr s => JsString.truthy s
  | VArr _ | VObj _ => true
  end.

(** [a || b] *)
Definition or (a b : value) : value := if truthy a then a else b.

(** The element of an array or the character of a string that the property
    name [key] designates, counting from [i]. *)
Fixpoint at_key {A} (l : list A) (i : nat) (key : jsstring) : option A :=
  match l with
  | [] => None
  | x :: r => if JsString.eqb (of_nat i) key then Some x else at_key r (S i) key
  end.

(** [v.key] and [v[key]].  Own properties only: the property names the
    source reads from values ([challenge], [challengeType], [team], [name],
    [content], [0], [text]) are not defined on a built-in prototype. *)
Definition get (v : value) (key : jsstring) : completion value :=
  match v with
  | VUndefined =>
      Throw (TypeError (str "Cannot read properties of undefined (reading '"
                          ++ key ++ str "')"))
  | VNull =>
      Throw (TypeError (str "Cannot read properties of null (reading '"
                          ++ key ++ str "')"))
  | VObj props => Normal (default VUndefined (props !! key))
  | VArr elems =>
      if JsString.eqb key (str "length")
      then Normal (num (Z.of_nat (length elems)))
      else Normal (default VUndefined (at_key elems 0 key))
  | VStr s =>
      if JsString.eqb key (str "length")
      then Normal (num (Z.of_nat (length s)))
      else Normal (from_option (fun c => VStr [c]) VUndefined (at_key s 0 key))
  | VBool _ | VNum _ => Normal VUndefined
  end.

(** The own enumerable properties of a value, which [...v] copies into an
    object literal: the properties of an object, the elements of an array
    and the characters of a string under their indices, nothing for the
    other values. *)
Definition own_props (v : value) : gmap jsstring value :=
  match v with
  | VObj props => props
  | VArr elems => list_to_map (imap (fun i x => (of_nat i, x)) elems)
  | VStr s => list_to_map (imap (fun i c => (of_nat i, VStr [c])) s)
  | _ => ∅
  end.

(** [{ ...target, ...v }]: the properties of [v] are defined after those of
    [target] and replace them. *)
Definition spread (target : gmap jsstring value) (v : value) : gmap jsstring value :=
  own_props v ∪ target.

(** [{ ...target, key: v }] *)
Definition set (target : gmap jsstring value) (key : jsstring) (v : value)
  : gmap jsstring value :=
  <[key := v]> target.

End Js.

(** ** The host, the store and the monad of handlers *)

(** What a run receives from outside the program. *)
Record host := {
  (** [Date.now()]: an integer number of milliseconds, far below 2^53, so
      that the arithmetic of the source on it is exact *)
  Date_now : Z;
  (** [axios.get(url)]: [response.data] of the resolved promise, or the
      error it rejects with *)
  axios_get : jsstring -> completion value;
  (** [axios.post(url, data, config)], likewise *)
  axios_post : jsstring -> value -> value -> completion value;
  (** [JSON.parse] on a string: the value, or the SyntaxError thrown *)
  JSON_parse : jsstring -> completion value;
  (** Number::toString *)
  Number_toString : number -> jsstring;
  (** [process.env.CLAUDE_API_KEY] *)
  CLAUDE_API_KEY : value
}.

(** The module-level variables [expertDatabase] and [lastFetchTime]. *)
Record store := {
  expertDatabase : list expert;
  lastFetchTime : Z
}.

(** [let expertDatabase = []; let lastFetchTime = 0;] *)
Definition initial_store : store :=
  {| expertDatabase := []; lastFetchTime := 0 |}.

(** [5 * 60 * 1000], five minutes *)
Definition CACHE_DURATION : Z := 5 * 60 * 1000.

Definition CLAUDE_API_URL : jsstring := str "https://api.anthropic.com/v1/messages".

(** The calls a run makes to the clock, the network and the console. *)
Inductive event :=
| EvDateNow
| EvAxiosGet (url : jsstring)
| EvAxiosPost (url : jsstring) (data config : value)
| EvConsoleError (label : jsstring) (arg : value + js_error).

(** A computation: from the store to its completion, the new store and the
    events it emitted, in order. *)
Definition M (A : Type) : Type := store -> completion A * store * list event.

#[export] Instance M_ret : MRet M := fun A a st => (Normal a, st, []).

#[export] Instance M_bind : MBind M := fun A B k m st =>
  match m st with
  | (Normal a, st1, tr1) =>
      let '(c, st2, tr2) := k a st1 in (c, st2, tr1 ++ tr2)
  | (Throw e, st1, tr1) => (Throw e, st1, tr1)
  end.

(** [throw e] *)
Definition throw {A} (e : js_error) : M A := fun st => (Throw e, st, []).

(** The completion of a pure evaluation, inside a computation. *)
Definition lift {A} (c : completion A) : M A := fun st => (c, st, []).

(** [try { body } catch (error) { handler }] *)
Definition try_catch {A} (body : M A) (handler : js_error -> M A) : M A :=
  fun st =>
    match body st with
    | (Normal a, st1, tr1) => (Normal a, st1, tr1)
    | (Throw e, st1, tr1) =>
        let '(c, st2, tr2) := handler e st1 in (c, st2, tr1 ++ tr2)
    end.

Definition emit (ev : event) : M unit := fun st => (Normal tt, st, [ev]).

Definition get_expertDatabase : M (list expert) :=
  fun st => (Normal (expertDatabase st), st, []).

Definition get_lastFetchTime : M Z :=
  fun st => (Normal (lastFetchTime st), st, []).

Definition set_expertDatabase (db : list expert) : M unit :=
  fun st => (Normal tt, {| expertDatabase := db; lastFetchTime := lastFetchTime st |}, []).

Definition set_lastFetchTime (t : Z) : M unit :=
  fun st => (Normal tt, {| expertDatabase := expertDatabase st; lastFetchTime := t |}, []).

(** [expertDatabase.push(expert)] *)
Definition push_expert (e : expert) : M unit :=
  db ← get_expertDatabase; set_expertDatabase (db ++ [e]).

(** [for (const x of xs) body(x)], in order. *)
Fixpoint for_each {A} (xs : list A) (body : A -> M unit) : M unit :=
  match xs with
  | [] => mret tt
  | x :: rest => body x;; for_each rest body
  end.

(** [xs.map(f)] with a callback that can throw. *)
Fixpoint map_completion {A B} (f : A -> completion B) (xs : list A) : completion (list B) :=
  match xs with
  | [] => Normal []
  | x :: rest =>
      match f x with
      | Normal y =>
          match map_completion f rest with
          | Normal ys => Normal (y :: ys)
          | Throw e => Throw e
          end
      | Throw e => Throw e
      end
  end.

(** An HTTP reply: [res.status(code).json(body)]; [res.json(body)] replies
    with status 200. *)
Record reply := {
  status_code : Z;
  json : value
}.

Section Host.

Variable h : host.

Definition date_now : M Z :=
  emit EvDateNow;; mret (Date_now h).

Definition http_get (url : jsstring) : M value :=
  emit (EvAxiosGet url);; lift (axios_get h url).

Definition http_post (url : jsstring) (data config : value) : M value :=
  emit (EvAxiosPost url data config);; lift (axios_post h url data config).

Definition console_error (label : jsstring) (arg : value + js_error) : M unit :=
  emit (EvConsoleError label arg).

(** ToString, as template literals, [Array.prototype.join] and
    [JSON.parse] apply it to their operands.  An array prints as its
    elements joined by commas, [null] and [undefined] elements as the empty
    string; a plain object prints as [[object Object]], unless it has an
    own property [toString], which for these values is never callable: then
    [Object.prototype.valueOf] returns the object itself and the conversion
    throws. *)
Fixpoint to_string (v : value) : completion jsstring :=
  match v with
  | VUndefined => Normal (str "undefined")
  | VNull => Normal (str "null")
  | VBool true => Normal (str "true")
  | VBool false => Normal (str "false")
  | VNum x => Normal (Number_toString h x)
  | VStr s => Normal s
  | VArr elems =>
      (fix items (l : list value) : completion jsstring :=
         match l with
         | [] => Normal []
         | x :: r =>
             let first := match x with
                          | VUndefined | VNull => Normal []
                          | _ => to_string x
                          end in
             match first, r with
             | Throw e, _ => Throw e
             | Normal s, [] => Normal s
             | Normal s, _ =>
                 match items r with
                 | Normal t => Normal (s ++ str "," ++ t)
                 | Throw e => Throw e
                 end
             end
         end) elems
  | VObj props =>
      match props !! str "toString" with
      | Some _ => Throw (TypeError (str "Cannot convert object to primitive value"))
      | None => Normal (str "[object Object]")
      end
  end.

(** [elems.join(sep)] on an array of values. *)
Definition array_join (sep : jsstring) (elems : list value) : completion jsstring :=
  pieces ← map_completion (fun x => match x with
                                    | VUndefined | VNull => Normal []
                                    | _ => to_string x
                                    end) elems;
  mret (join sep pieces).

(** [JSON.parse(v)]: the argument is converted to a string first. *)
Definition json_parse (v : value) : completion value :=
  text ← to_string v;
  JSON_parse h text.

End Host.

(** ** The program *)

Section Server.

Variable h : host.

(** *** Expert directory *)

Definition sheetId : jsstring := str "1v-As-SdoND3CYUm59o_LCMICpHOvRv98bYGh8JAHvG0".

Definition csvUrl : jsstring :=
  str "https://docs.google.com/spreadsheets/d/" ++ sheetId ++ str "/export?format=csv".

(** [response.data.split('\n')]: only a string has the method. *)
Definition split_lines (data : value) : completion (list jsstring) :=
  match data with
  | VStr s => Normal (split LF s)
  | VUndefined =>
      Throw (TypeError (str "Cannot read properties of undefined (reading 'split')"))
  | VNull =>
      Throw (TypeError (str "Cannot read properties of null (reading 'split')"))
  | _ => Throw (TypeError (str "response.data.split is not a function"))
  end.

(** The body of the loop, for the line [lines[i]]. *)
Definition row (line : jsstring) : M unit :=
  if negb (JsString.truthy (trim line)) then mret tt
  else
    let values := split COMMA line in
    let expert := expert_of_values values in
    if available expert then push_expert expert else mret tt.

Definition fetchExpertDatabase : M (list expert) :=
  now ← date_now h;
  db ← get_expertDatabase;
  last ← get_lastFetchTime;
  if (0 <? Z.of_nat (length db)) && (now - last <? CACHE_DURATION) then
    mret db
  else
    try_catch
      (data ← http_get h csvUrl;
       lines ← lift (split_lines data);
       let headers := split COMMA (hd [] lines) in
       set_expertDatabase [];;
       for_each (tail lines) row;;
       set_lastFetchTime now;;
       get_expertDatabase)
      (fun error =>
         console_error (str "Error fetching expert database:") (inr error);;
         get_expertDatabase).

(** *** Model gateway *)

Definition claude_request (systemPrompt userMessage : value) : value :=
  VObj (Js.set (Js.set (Js.set (Js.set ∅
    (str "model") (VStr (str "claude-opus-4-5-20251101")))
    (str "max_tokens") (num 2000))
    (str "system") systemPrompt)
    (str "messages")
      (VArr [VObj (Js.set (Js.set ∅
               (str "role") (VStr (str "user")))
               (str "content") userMessage)])).

Definition claude_config : value :=
  VObj (Js.set ∅ (str "headers")
    (VObj (Js.set (Js.set ∅
       (str "x-api-key") (CLAUDE_API_KEY h))
       (str "anthropic-version") (VStr (str "2023-06-01"))))).

(** [response.data.content[0].text], on [data = response.data] *)
Definition content_text (data : value) : completion value :=
  content ← Js.get data (str "content");
  first ← Js.get content (str "0");
  Js.get first (str "text").

Definition callClaude (systemPrompt userMessage : value) : M value :=
  try_catch
    (data ← http_post h CLAUDE_API_URL
              (claude_request systemPrompt userMessage) claude_config;
     lift (content_text data))
    (fun error =>
       console_error (str "Claude API error:")
         (inl (Js.or (err_response_data error) (VStr (err_message error))));;
       throw error).

(** *** Replies *)

Definition error_reply (code : Z) (message : jsstring) : reply :=
  {| status_code := code;
     json := VObj (Js.set ∅ (str "error") (VStr message)) |}.

Definition ok_reply (body : gmap jsstring value) : reply :=
  {| status_code := 200; json := VObj body |}.

(** [const { a, b } = req.body]: reading a property of [undefined] or
    [null] throws. *)
Definition destructure (body : value) (key : jsstring) : completion value :=
  match body with
  | VUndefined | VNull =>
      Throw (TypeError (str "Cannot destructure property '" ++ key
                          ++ str "' of 'req.body' as it is "
                          ++ (if body is VNull then str "null" else str "undefined")
                          ++ str "."))
  | _ => Js.get body key
  end.

(** *** Phase 1 *)

Definition phase1_prompt : jsstring := tpl
"You are the Perspectivology Cognitive Engine operating in PHASE 1 — CLARITY CAPTURE.

Your task:
1. Paraphrase the challenge clearly without invention
2. Identify the challenge type (Decision, Strategic planning, Conflict, Career transition, Ethical dilemma, or Problem-solving)
3. If `why it matters` is missing, ask for it
4. Do NOT give advice yet

Output as JSON:
{
  `paraphrase`: `Clear restatement of the challenge`,
  `challengeType`: `Type identified`,
  `whyItMatters`: `User's explanation or null if missing`,
  `needsWhyItMatters`: true/false,
  `clarifyingQuestion`: `Question to ask if needed (or null)`
}".

Definition phase1 (body : value) : M reply :=
  challenge ← lift (destructure body (str "challenge"));
  if negb (Js.truthy challenge) then
    mret (error_reply 400 (str "Challenge required"))
  else
    try_catch
      (let systemPrompt := phase1_prompt in
       response ← callClaude (VStr systemPrompt) challenge;
       parsed ← lift (json_parse h response);
       mret (ok_reply (Js.spread (Js.set ∅ (str "phase") (num 1)) parsed)))
      (fun error => mret (error_reply 500 (err_message error))).

(** *** Phase 2 *)

(** [`${e.firstName} ${e.lastName} (${e.years}) - ${e.field1}, ${e.descriptor}`] *)
Definition expert_line (e : expert) : jsstring :=
  firstName e ++ str " " ++ lastName e ++ str " (" ++ years e ++ str ") - "
  ++ field1 e ++ str ", " ++ descriptor e.

Definition phase2_prompt (expertPool : jsstring) : jsstring :=
  tpl
"You are the Perspectivology Cognitive Engine operating in PHASE 2 — DREAM TEAM CONSTRUCTION.

You must construct exactly 9 experts based on this pool:

" ++ expertPool ++ tpl "

Rules:
- Status 0 = available (ONLY use these)
- Generate exactly 9 experts
- Composition: 1 Strategic, 1 Analytical/Data, 1 Ethical, 1 Psychological/Behavioral, 1 Implementation, 1 Systems thinker, 1 Contrarian, 2 context-specific domain experts
- No duplication of cognitive lens
- Ensure disciplinary diversity

Output as JSON:
{
  `team`: [
    {
      `name`: `Full Name`,
      `years`: `Years active`,
      `field`: `Primary field`,
      `relevance`: `One precise sentence how they help with this challenge`,
      `role`: `Strategic/Analytical/Ethical/Psychological/Implementation/Systems/Contrarian/Domain`
    }
  ],
  `composition`: `Brief explanation of team diversity`
}".

(** [`Challenge type: ${challengeType}\nChallenge: ${challenge}`] *)
Definition phase2_message (challengeType challenge : value) : completion jsstring :=
  t ← to_string h challengeType;
  c ← to_string h challenge;
  mret (str "Challenge type: " ++ t ++ [LF] ++ str "Challenge: " ++ c).

Definition phase2 (body : value) : M reply :=
  challenge ← lift (destructure body (str "challenge"));
  challengeType ← lift (destructure body (str "challengeType"));
  if negb (Js.truthy challenge) || negb (Js.truthy challengeType) then
    mret (error_reply 400 (str "Challenge and challengeType required"))
  else
    try_catch
      (experts ← fetchExpertDatabase;
       let expertPool := join [LF] (List.map expert_line experts) in
       let systemPrompt := phase2_prompt expertPool in
       message ← lift (phase2_message challengeType challenge);
       response ← callClaude (VStr systemPrompt) (VStr message);
       parsed ← lift (json_parse h response);
       mret (ok_reply
               (Js.set (Js.set (Js.spread (Js.set ∅ (str "phase") (num 2)) parsed)
                  (str "swapAvailable") (VBool true))
                  (str "swapLimit") (num 3))))
      (fun error => mret (error_reply 500 (err_message error))).

(** *** Phase 3 *)

(** [team.map(e => e.name)]: only an array has the method (a request body
    holds no functions). *)
Definition team_names (team : value) : completion (list value) :=
  match team with
  | VArr elems => map_completion (fun e => Js.get e (str "name")) elems
  | VUndefined =>
      Throw (TypeError (str "Cannot read properties of undefined (reading 'map')"))
  | VNull =>
      Throw (TypeError (str "Cannot read properties of null (reading 'map')"))
  | _ => Throw (TypeError (str "team.map is not a function"))
  end.

Definition phase3_prompt (teamNames : jsstring) : jsstring :=
  tpl
"You are the Perspectivology Cognitive Engine operating in PHASE 3 — COGNITIVE ENGINE INTERROGATION.

You will ask 5 context-revealing questions, ONE AT A TIME. Each question reveals assumptions, constraints, incentives, trade-offs, or emotional drivers.

Your Dream Team: " ++ teamNames ++ tpl "

Output as JSON:
{
  `questionNumber`: 1,
  `question`: `Question text here`,
  `askedBy`: `Team member name`,
  `reveals`: `What this question reveals (assumptions/constraints/incentives/trade-offs/emotional drivers)`
}".

(** [`Challenge: ${challenge}`] *)
Definition phase3_message (challenge : value) : completion jsstring :=
  c ← to_string h challenge;
  mret (str "Challenge: " ++ c).

Definition phase3 (body : value) : M reply :=
  challenge ← lift (destructure body (str "challenge"));
  team ← lift (destructure body (str "team"));
  if negb (Js.truthy challenge) || negb (Js.truthy team) then
    mret (error_reply 400 (str "Challenge and team required"))
  else
    try_catch
      (names ← lift (team_names team);
       teamNames ← lift (array_join h (str ", ") names);
       let systemPrompt := phase3_prompt teamNames in
       message ← lift (phase3_message challenge);
       response ← callClaude (VStr systemPrompt) (VStr message);
       parsed ← lift (json_parse h response);
       mret (ok_reply
               (Js.set (Js.spread (Js.set ∅ (str "phase") (num 3)) parsed)
                  (str "totalQuestions") (num 5))))
      (fun error => mret (error_reply 500 (err_message error))).

(** *** Health check *)

Definition health : M reply :=
  mret (ok_reply (Js.set ∅ (str "status") (VStr (str "ok")))).

End Server.

(** ** Runs *)

(** The parts of a run. *)
Definition completion_of {A} (r : completion A * store * list event) : completion A := r.1.1.
Definition store_of {A} (r : completion A * store * list event) : store := r.1.2.
Definition trace_of {A} (r : completion A * store * list event) : list event := r.2.

(** The condition under which [fetchExpertDatabase] answers from the cache. *)
Definition fresh (h : host) (st : store) : bool :=
  (0 <? Z.of_nat (length (expertDatabase st)))
  && (Date_now h - lastFetchTime st <? CACHE_DURATION).

(** What the host answers to the fetch of the feed, up to the split into
    lines: the last point of [fetchExpertDatabase] that can throw. *)
Definition feed_lines (h : host) : completion (list jsstring) :=
  data ← axios_get h csvUrl; split_lines data.

(** The store with the array [db] in [expertDatabase]. *)
Definition with_db (st : store) (db : list expert) : store :=
  {| expertDatabase := db; lastFetchTime := lastFetchTime st |}.

(** The record of a row. *)
Definition expert_of_line (line : jsstring) : expert :=
  expert_of_values (split COMMA line).

(** The stores the server can be in: the initial one, and the store left
    by the start-up call of [fetchExpertDatabase] or by a handler, under any
    host. *)
Inductive reachable : store -> Prop :=
| reach_initial : reachable initial_store
| reach_fetch h st :
    reachable st -> reachable (store_of (fetchExpertDatabase h st))
| reach_phase1 h body st :
    reachable st -> reachable (store_of (phase1 h body st))
| reach_phase2 h body st :
    reachable st -> reachable (store_of (phase2 h body st))
| reach_phase3 h body st :
    reachable st -> reachable (store_of (phase3 h body st)).

(** Numbers of remote calls in a trace. *)
Definition is_get (ev : event) : bool :=
  match ev with EvAxiosGet _ => true | _ => false end.

Definition is_post (ev : event) : bool :=
  match ev with EvAxiosPost _ _ _ => true | _ => false end.

Definition gets (tr : list event) : nat := length (List.filter is_get tr).
Definition posts (tr : list event) : nat := length (List.filter is_post tr).

(** ** Notions of the specification *)

Module Spec.

(** The first-name attribute of a row: column 1, trimmed. *)
Definition first_name (line : jsstring) : jsstring :=
  match split COMMA line !! 1%nat with
  | Some v => trim v
  | None => []
  end.

(** The status a row parses to: column 7 read as an integer, a non-numeric
    or absent column counting as 0. *)
Definition parsed_status (line : jsstring) : Z :=
  match split COMMA line !! 7%nat with
  | Some v => default 0 (parseInt v)
  | None => 0
  end.

(** A row is retained iff its first name is non-empty and its status
    parses to 0. *)
Definition retained (line : jsstring) : Prop :=
  first_name line <> [] /\ parsed_status line = 0.

#[export] Instance retained_dec line : Decision (retained line).
Proof. unfold retained. apply _. Defined.

(** The rows of a feed are its lines after the header line. *)
Definition rows (data : jsstring) : list jsstring := tail (split LF data).

(** The directory a feed describes. *)
Definition directory (data : jsstring) : list expert :=
  expert_of_line <$> filter retained (rows data).

(** A snapshot of the directory exists in a store when the store is the
    one a read left after fetching the feed and replacing the cache. *)
Inductive snapshot_taken : store -> Prop :=
| snapshot_refreshed h st db :
    fetchExpertDatabase h st
    = (Normal db, {| expertDatabase := db; lastFetchTime := Date_now h |},
       [EvDateNow; EvAxiosGet csvUrl]) ->
    snapshot_taken {| expertDatabase := db; lastFetchTime := Date_now h |}.

End Spec.

(** ** The gateway and the handlers under a host *)

Section Outcomes.

Variable h : host.

(** What the gateway call comes to: the text of the first content block of
    the answer, or the error thrown on the way. *)
Definition gateway (systemPrompt userMessage : value) : completion value :=
  data ← axios_post h CLAUDE_API_URL
            (claude_request systemPrompt userMessage) (claude_config h);
  content_text data.

(** The events of the gateway call: the request, and the log line when it
    fails. *)
Definition gateway_trace (systemPrompt userMessage : value) : list event :=
  EvAxiosPost CLAUDE_API_URL
    (claude_request systemPrompt userMessage) (claude_config h)
  :: match gateway systemPrompt userMessage with
     | Normal _ => []
     | Throw e =>
         [EvConsoleError (str "Claude API error:")
            (inl (Js.or (err_response_data e) (VStr (err_message e))))]
     end.

(** The parsed output of the model. *)
Definition model_output (systemPrompt userMessage : value) : completion value :=
  response ← gateway systemPrompt userMessage;
  json_parse h response.

(** The reply a handler sends after its [try] block: the body it built, or
    status 500 with the message of the error caught. *)
Definition reply_of (c : completion (gmap jsstring value)) : reply :=
  match c with
  | Normal body => ok_reply body
  | Throw e => error_reply 500 (err_message e)
  end.

Definition phase1_body (parsed : value) : gmap jsstring value :=
  Js.spread (Js.set ∅ (str "phase") (num 1)) parsed.

Definition phase2_body (parsed : value) : gmap jsstring value :=
  Js.set (Js.set (Js.spread (Js.set ∅ (str "phase") (num 2)) parsed)
    (str "swapAvailable") (VBool true))
    (str "swapLimit") (num 3).

Definition phase3_body (parsed : value) : gmap jsstring value :=
  Js.set (Js.spread (Js.set ∅ (str "phase") (num 3)) parsed)
    (str "totalQuestions") (num 5).

(** The system prompt of phase 2 for a directory. *)
Definition phase2_system (experts : list expert) : value :=
  VStr (phase2_prompt (join [LF] (List.map expert_line experts))).

(** The system prompt and the user message of phase 3, which are computed
    before the gateway is called and can throw. *)
Definition phase3_inputs (challenge team : value) : completion (value * value) :=
  names ← team_names team;
  teamNames ← array_join h (str ", ") names;
  message ← phase3_message h challenge;
  mret (VStr (phase3_prompt teamNames), VStr message).

End Outcomes.

(** ** Example hosts and requests *)

Module Examples.

(** The double quote. *)
Definition dq : jsstring := [34%N].

(** Number::toString on the special values and on integers below 10^21,
    which print as their decimal digits; the runs below print no other
    number. *)
Definition integer_toString (x : number) : jsstring :=
  let digits (neg : bool) (z : Z) :=
    if z <? 10 ^ 21
    then (if neg then str "-" else []) ++ of_nat (Z.to_nat z)
    else [] in
  match x with
  | S754_zero _ => str "0"
  | S754_nan => str "NaN"
  | S754_infinity false => str "Infinity"
  | S754_infinity true => str "-Infinity"
  | S754_finite neg m e =>
      if 0 <=? e then digits neg (Z.pos m * 2 ^ e)
      else if Z.pos m mod 2 ^ (- e) =? 0 then digits neg (Z.pos m / 2 ^ (- e))
      else []
  end.

(** [JSON.parse] known on a single text. *)
Definition parse_only (text : jsstring) (v : value) (t : jsstring) : completion value :=
  if JsString.eqb t text then Normal v
  else Throw (TypeError (str "Unexpected token in JSON")).

(** The answer of the messages endpoint carrying [text]. *)
Definition claude_answer (text : jsstring) : value :=
  VObj (Js.set ∅ (str "content")
          (VArr [VObj (Js.set (Js.set ∅ (str "type") (VStr (str "text")))
                         (str "text") (VStr text))])).

(** A host at time [now] whose sheet holds [csv] and whose model answers
    [text], which parses to [parsed]. *)
Definition a_host (now : Z) (csv : completion value) (text : jsstring) (parsed : value) : host :=
  {| Date_now := now;
     axios_get := fun _ => csv;
     axios_post := fun _ _ _ => Normal (claude_answer text);
     JSON_parse := parse_only text parsed;
     Number_toString := integer_toString;
     CLAUDE_API_KEY := VStr (str "sk-test") |}.

Definition network_error : js_error :=
  {| err_message := str "Network Error"; err_response_data := VUndefined |}.

(** The row of the specification's example, under a header line, and a
    row of status 1. *)
Definition feed : jsstring := str
"Last,First,Years,Field1,Field2,Descriptor,Field3,Status,Gender,Geography,Recognizable
Doe,Jane,10,Ethics,,Moral philosopher,,0,F,EU,Yes
Roe,Rick,12,Law,,Jurist,,1,M,US,No".

Definition jane : expert :=
  {| firstName := str "Jane"; lastName := str "Doe"; years := str "10";
     field1 := str "Ethics"; field2 := []; descriptor := str "Moral philosopher";
     field3 := []; status := 0; gender := str "F"; geography := str "EU";
     recognizable := str "Yes" |}.

(** A feed with a header line and no row. *)
Definition empty_feed : jsstring := str
"Last,First,Years,Field1,Field2,Descriptor,Field3,Status,Gender,Geography,Recognizable".

(** [{"team":[]}] *)
Definition no_team_text : jsstring :=
  str "{" ++ dq ++ str "team" ++ dq ++ str ":[]}".
Definition no_team : value := VObj (Js.set ∅ (str "team") (VArr [])).

(** [{"phase":7}] *)
Definition phase7_text : jsstring :=
  str "{" ++ dq ++ str "phase" ++ dq ++ str ":7}".
Definition phase7 : value := VObj (Js.set ∅ (str "phase") (num 7)).

(** [{"questionNumber":9,"totalQuestions":12}] *)
Definition twelve_text : jsstring :=
  str "{" ++ dq ++ str "questionNumber" ++ dq ++ str ":9,"
  ++ dq ++ str "totalQuestions" ++ dq ++ str ":12}".
Definition twelve : value :=
  VObj (Js.set (Js.set ∅ (str "questionNumber") (num 9))
          (str "totalQuestions") (num 12)).

(** Request bodies. *)
Definition challenge_text : value := VStr (str "Should I change jobs?").

Definition body1 : value := VObj (Js.set ∅ (str "challenge") challenge_text).

Definition body2 : value :=
  VObj (Js.set (Js.set ∅ (str "challenge") challenge_text)
          (str "challengeType") (VStr (str "Decision"))).

Definition body3 (team : value) : value :=
  VObj (Js.set (Js.set ∅ (str "challenge") challenge_text) (str "team") team).

(** The store after a refresh at time 1000 from the feed without rows,
    and a host one second later whose sheet has gained rows. *)
Definition empty_snapshot : store := {| expertDatabase := []; lastFetchTime := 1000 |}.
Definition host_at_1000 : host := a_host 1000 (Normal (VStr empty_feed)) no_team_text no_team.
Definition host_at_2000 : host := a_host 2000 (Normal (VStr feed)) no_team_text no_team.

(** Hosts whose model answers [phase7_text] and [twelve_text]. *)
Definition phase7_host : host := a_host 2000 (Normal (VStr feed)) phase7_text phase7.
Definition twelve_host : host := a_host 2000 (Normal (VStr feed)) twelve_text twelve.

(** A team of one. *)
Definition ada_team : value :=
  VArr [VObj (Js.set ∅ (str "name") (VStr (str "Ada Lovelace")))].

(** A store holding a directory refreshed at time 1000. *)
Definition jane_snapshot : store := {| expertDatabase := [jane]; lastFetchTime := 1000 |}.

(** A host, past the window of [jane_snapshot], whose sheet cannot be reached. *)
Definition host_offline : host := a_host 900000 (Throw network_error) no_team_text no_team.

End Examples.

(** ** Further notions *)

(** Carriage return. *)
Definition CR : N := 13.

(** The string attributes of a record. *)
Definition attributes (e : expert) : list jsstring :=
  [firstName e; lastName e; years e; field1 e; field2 e; descriptor e;
   field3 e; gender e; geography e; recognizable e].

(** A string with no white space at either end and neither a comma nor a
    line feed inside. *)
Definition clean (s : jsstring) : Prop :=
  trim s = s /\ Forall (fun c => c <> COMMA /\ c <> LF) s.

(** [pieces] with the code unit [c] appended to its last piece. *)
Fixpoint snoc_last (c : N) (pieces : list jsstring) : list jsstring :=
  match pieces with
  | [] => []
  | [p] => [p ++ [c]]
  | p :: rest => p :: snoc_last c rest
  end.

(** Further example hosts. *)
Module MoreExamples.

Import Examples.

(** A host at time 2000 whose messages endpoint answers [post] and whose
    [JSON.parse] is [parse]. *)
Definition post_host (post : completion value) (parse : jsstring -> completion value) : host :=
  {| Date_now := 2000;
     axios_get := fun _ => Normal (VStr feed);
     axios_post := fun _ _ _ => post;
     JSON_parse := parse;
     Number_toString := integer_toString;
     CLAUDE_API_KEY := VStr (str "sk-test") |}.

(** The rejection of a request answered with status 529 and a body. *)
Definition overloaded : js_error :=
  {| err_message := str "Request failed with status code 529";
     err_response_data :=
       VObj (Js.set ∅ (str "type") (VStr (str "error"))) |}.

(** A host whose gateway is overloaded. *)
Definition host_overloaded : host :=
  post_host (Throw overloaded) (parse_only no_team_text no_team).

(** The error [JSON.parse] throws on a text that is not JSON. *)
Definition not_json : js_error :=
  {| err_message := str "Unexpected token 'S', is not valid JSON";
     err_response_data := VUndefined |}.

(** A host whose model answers prose. *)
Definition host_prose : host :=
  post_host (Normal (claude_answer (str "Sure! Here is the team.")))
    (fun _ => Throw not_json).

(** A host whose messages endpoint answers without content blocks. *)
Definition host_no_content : host :=
  post_host (Normal (VObj (Js.set ∅ (str "content") (VArr []))))
    (parse_only no_team_text no_team).

(** A host whose model answers [null]. *)
Definition host_null : host :=
  post_host (Normal (claude_answer (str "null"))) (parse_only (str "null") VNull).

End MoreExamples.

(** * Properties *)

(** Text constants and object literals stay folded during simplification. *)
Arguments str : simpl never.
Arguments tpl : simpl never.
Arguments num : simpl never.
Arguments Js.set : simpl never.
Arguments Js.spread : simpl never.
Arguments claude_request : simpl never.
Arguments claude_config : simpl never.
Arguments error_reply : simpl never.
Arguments ok_reply : simpl never.
Arguments csvUrl : simpl never.
Arguments CLAUDE_API_URL : simpl never.
Arguments CACHE_DURATION : simpl never.
Arguments gateway_trace : simpl never.
Arguments phase1_body : simpl never.
Arguments phase2_body : simpl never.
Arguments phase3_body : simpl never.

Ltac unfold_monad :=
  unfold mbind, mret, M_bind, M_ret, completion_bind, completion_ret,
    try_catch, lift, throw, emit, console_error, http_get, http_post, date_now,
    get_expertDatabase, get_lastFetchTime, set_expertDatabase,
    set_lastFetchTime, push_expert in *.

(** ** White space and the columns of a row *)

Section Rows.

Lemma trimStart_nil (s : jsstring) :
  trimStart s = [] <-> Forall (fun c => is_whitespace c = true) s.
Proof.
  induction s as [|c r IH]; simpl.
  - split; [constructor | reflexivity].
  - destruct (is_whitespace c) eqn:Hc.
    + rewrite IH. split; [now constructor | now inversion 1].
    + split; [discriminate | inversion 1; congruence].
Qed.

Lemma trimStart_head (s : jsstring) c r :
  trimStart s = c :: r -> is_whitespace c = false.
Proof.
  induction s as [|d t IH]; simpl; [discriminate|].
  destruct (is_whitespace d) eqn:Hd; [exact IH|].
  intros [= <- <-]. exact Hd.
Qed.

(** A string trims to the empty string exactly when it is white space
    throughout. *)
Lemma trim_nil (s : jsstring) :
  trim s = [] <-> Forall (fun c => is_whitespace c = true) s.
Proof.
  unfold trim, trimEnd. split.
  - intros H. apply (f_equal (@rev N)) in H. rewrite rev_involutive in H.
    simpl in H. apply trimStart_nil in H. apply Forall_rev in H.
    rewrite rev_involutive in H.
    destruct (trimStart s) as [|c r] eqn:Hs; [now apply trimStart_nil|].
    apply trimStart_head in Hs. inversion H; congruence.
  - intros H. apply trimStart_nil in H. now rewrite H.
Qed.

(** A string without the separator is a single piece. *)
Lemma split_no_sep (sep : N) (s : jsstring) :
  Forall (fun c => c <> sep) s -> split sep s = [s].
Proof.
  induction 1 as [|c r Hc _ IH]; simpl; [reflexivity|].
  destruct (N.eqb_spec c sep); [contradiction|]. now rewrite IH.
Qed.

Lemma blank_line_values (line : jsstring) :
  trim line = [] -> split COMMA line = [line].
Proof.
  intros H. apply split_no_sep. apply trim_nil in H.
  eapply Forall_impl; [exact H|]. intros c Hc ->. discriminate Hc.
Qed.

Lemma truthy_nil (s : jsstring) : JsString.truthy s = false <-> s = [].
Proof. destruct s; simpl; split; congruence. Qed.

Lemma truthy_column1 (values : list jsstring) :
  JsString.truthy (column values 1 [])
  = match values !! 1%nat with
    | Some v => JsString.truthy (trim v)
    | None => false
    end.
Proof.
  unfold column. destruct (values !! 1%nat) as [v|]; [|reflexivity].
  now destruct (JsString.truthy (trim v)) eqn:E.
Qed.

Lemma parseInt_undefined : parseInt (str "undefined") = None.
Proof. reflexivity. Qed.

Lemma column_int_zero (values : list jsstring) :
  column_int values 7 = 0
  <-> match values !! 7%nat with
      | Some v => default 0 (parseInt v)
      | None => 0
      end = 0.
Proof.
  unfold column_int. destruct (values !! 7%nat) as [v|].
  - destruct (parseInt v) as [z|]; simpl; [|tauto].
    destruct (Z.eqb_spec z 0); subst; tauto.
  - rewrite parseInt_undefined. tauto.
Qed.

(** The test of the loop body, blank-line check included, is the test of
    the specification. *)
Lemma available_retained (line : jsstring) :
  JsString.truthy (trim line) && available (expert_of_line line) = true
  <-> Spec.retained line.
Proof.
  unfold available, expert_of_line, Spec.retained, Spec.first_name,
    Spec.parsed_status.
  cbn [firstName status expert_of_values].
  rewrite truthy_column1, !andb_true_iff, Z.eqb_eq, column_int_zero.
  split.
  - intros (_ & Hf & Hs). split; [|exact Hs].
    destruct (split COMMA line !! 1%nat) as [v|]; [|discriminate].
    intros E. now rewrite E in Hf.
  - intros (Hf & Hs).
    destruct (JsString.truthy (trim line)) eqn:Hb.
    + split; [reflexivity|]. split; [|exact Hs].
      destruct (split COMMA line !! 1%nat) as [v|]; [|congruence].
      destruct (trim v); [congruence | reflexivity].
    + apply truthy_nil in Hb. rewrite (blank_line_values _ Hb) in Hf.
      now elim Hf.
Qed.

End Rows.

(** ** The expert directory *)

Section Directory.

Variable h : host.

Lemma row_run (line : jsstring) (st : store) :
  row line st
  = (Normal tt,
     with_db st (expertDatabase st
                 ++ (if decide (Spec.retained line) then [expert_of_line line] else [])),
     []).
Proof.
  unfold row, with_db.
  pose proof (available_retained line) as Hiff. fold (expert_of_line line).
  destruct (JsString.truthy (trim line)) eqn:Hb; simpl in *.
  - destruct (available (expert_of_line line)) eqn:Ha.
    + rewrite decide_True by now apply Hiff. reflexivity.
    + rewrite decide_False by (intros H'; apply Hiff in H'; discriminate).
      rewrite app_nil_r. now destruct st.
  - rewrite decide_False by (intros H'; apply Hiff in H'; discriminate).
    rewrite app_nil_r. now destruct st.
Qed.

Lemma for_each_row_run (lines : list jsstring) (st : store) :
  for_each lines row st
  = (Normal tt,
     with_db st (expertDatabase st ++ (expert_of_line <$> filter Spec.retained lines)),
     []).
Proof.
  revert st. induction lines as [|line rest IH]; intros st; simpl.
  - unfold_monad. rewrite app_nil_r. now destruct st.
  - unfold mbind, M_bind. rewrite row_run, IH. unfold with_db; simpl.
    rewrite filter_cons. destruct (decide (Spec.retained line)); simpl.
    + now rewrite <- app_assoc.
    + now rewrite app_nil_r.
Qed.

End Directory.

Section Fetch.

Variable h : host.

(** A read inside the window of a non-empty cache answers from the cache:
    the clock is read, nothing else happens. *)
Lemma fetch_fresh (st : store) :
  fresh h st = true ->
  fetchExpertDatabase h st = (Normal (expertDatabase st), st, [EvDateNow]).
Proof.
  unfold fresh, fetchExpertDatabase. intros Hf. unfold_monad. simpl.
  now rewrite Hf.
Qed.

(** Otherwise the feed is fetched; when it arrives as a string, the cache
    is replaced by the retained rows and the time of the refresh is the
    time read at the start. *)
Lemma fetch_refresh (st : store) (data : jsstring) :
  fresh h st = false ->
  axios_get h csvUrl = Normal (VStr data) ->
  fetchExpertDatabase h st
  = (Normal (Spec.directory data),
     {| expertDatabase := Spec.directory data; lastFetchTime := Date_now h |},
     [EvDateNow; EvAxiosGet csvUrl]).
Proof.
  unfold fresh, fetchExpertDatabase. intros Hf Hget. unfold_monad. simpl.
  rewrite Hf, Hget. simpl.
  rewrite for_each_row_run. reflexivity.
Qed.

(** When the fetch fails, or the data is not a string, the error is logged
    and the read answers with the cache as it was. *)
Lemma fetch_failure (st : store) (e : js_error) :
  fresh h st = false ->
  feed_lines h = Throw e ->
  fetchExpertDatabase h st
  = (Normal (expertDatabase st), st,
     [EvDateNow; EvAxiosGet csvUrl;
      EvConsoleError (str "Error fetching expert database:") (inr e)]).
Proof.
  unfold fresh, fetchExpertDatabase, feed_lines. intros Hf Hfail.
  unfold_monad. simpl. rewrite Hf.
  destruct (axios_get h csvUrl) as [data|e']; simpl in *.
  - rewrite Hfail. reflexivity.
  - now inversion Hfail.
Qed.

(** The lines of a feed that arrived as a string. *)
Lemma feed_lines_normal (lines : list jsstring) :
  feed_lines h = Normal lines ->
  exists data, axios_get h csvUrl = Normal (VStr data) /\ lines = split LF data.
Proof.
  unfold feed_lines. unfold_monad.
  destruct (axios_get h csvUrl) as [data|e]; [|discriminate].
  destruct data; simpl; try discriminate.
  intros [= <-]. eauto.
Qed.

(** A read never throws, and leaves one of two stores. *)
Lemma fetch_cases (st : store) :
  (exists tr, fetchExpertDatabase h st = (Normal (expertDatabase st), st, tr)
              /\ gets tr <= 1 /\ posts tr = 0)%nat
  \/ (exists data,
        fetchExpertDatabase h st
        = (Normal (Spec.directory data),
           {| expertDatabase := Spec.directory data; lastFetchTime := Date_now h |},
           [EvDateNow; EvAxiosGet csvUrl])).
Proof.
  destruct (fresh h st) eqn:Hf.
  - left. eexists. split; [now apply fetch_fresh|].
    unfold gets, posts; simpl. split; [lia|reflexivity].
  - destruct (feed_lines h) as [lines|e] eqn:Hl.
    + right. apply feed_lines_normal in Hl as (data & Hget & _).
      exists data. now apply fetch_refresh.
    + left. eexists. split; [eapply fetch_failure; eassumption|].
      unfold gets, posts; simpl. split; [lia|reflexivity].
Qed.

End Fetch.

Lemma directory_available (data : jsstring) :
  Forall (fun e => firstName e <> [] /\ status e = 0) (Spec.directory data).
Proof.
  unfold Spec.directory. apply Forall_fmap, Forall_forall.
  intros line Hin. apply list_elem_of_filter in Hin as [Hret _].
  apply available_retained in Hret. apply andb_true_iff in Hret as [_ Ha].
  unfold available in Ha. apply andb_true_iff in Ha as [Hn Hs].
  apply Z.eqb_eq in Hs.
  change (firstName (expert_of_line line) <> [] /\ status (expert_of_line line) = 0).
  split; [|exact Hs]. intros E. now rewrite E in Hn.
Qed.

(** ** The gateway *)

Section Gateway.

Variable h : host.

(** The gateway leaves the store alone and posts exactly once. *)
Lemma callClaude_run (systemPrompt userMessage : value) (st : store) :
  callClaude h systemPrompt userMessage st
  = (gateway h systemPrompt userMessage, st,
     gateway_trace h systemPrompt userMessage).
Proof.
  unfold callClaude, gateway_trace, gateway. unfold_monad. simpl.
  destruct (axios_post h _ _ _) as [data|e]; simpl; [|reflexivity].
  destruct (content_text data); reflexivity.
Qed.

Lemma gateway_trace_posts (systemPrompt userMessage : value) :
  posts (gateway_trace h systemPrompt userMessage) = 1%nat
  /\ gets (gateway_trace h systemPrompt userMessage) = 0%nat.
Proof.
  unfold gateway_trace, posts, gets.
  destruct (gateway h systemPrompt userMessage); split; reflexivity.
Qed.

End Gateway.

(** ** The handlers *)

Section Handlers.

Variable h : host.

Lemma phase1_rejected (body challenge : value) (st : store) :
  destructure body (str "challenge") = Normal challenge ->
  Js.truthy challenge = false ->
  phase1 h body st = (Normal (error_reply 400 (str "Challenge required")), st, []).
Proof.
  intros Hc Ht. unfold phase1. unfold_monad. now rewrite Hc, Ht.
Qed.

Lemma phase1_run (body challenge : value) (st : store) :
  destructure body (str "challenge") = Normal challenge ->
  Js.truthy challenge = true ->
  phase1 h body st
  = (Normal (reply_of (parsed ← model_output h (VStr phase1_prompt) challenge;
                       mret (phase1_body parsed))),
     st, gateway_trace h (VStr phase1_prompt) challenge).
Proof.
  intros Hc Ht. unfold phase1, model_output, phase1_body. unfold_monad.
  rewrite Hc, Ht. simpl. rewrite callClaude_run.
  destruct (gateway h _ _) as [response|e]; simpl.
  - destruct (json_parse h response); simpl; now rewrite ?app_nil_r.
  - now rewrite ?app_nil_r.
Qed.

Lemma phase2_rejected (body challenge challengeType : value) (st : store) :
  destructure body (str "challenge") = Normal challenge ->
  destructure body (str "challengeType") = Normal challengeType ->
  Js.truthy challenge && Js.truthy challengeType = false ->
  phase2 h body st
  = (Normal (error_reply 400 (str "Challenge and challengeType required")), st, []).
Proof.
  intros Hc Hy Ht. unfold phase2. unfold_monad. rewrite Hc, Hy. simpl.
  rewrite <- negb_andb, Ht. reflexivity.
Qed.

Lemma phase2_run (body challenge challengeType : value) (st st' : store)
    (experts : list expert) (tr : list event) :
  destructure body (str "challenge") = Normal challenge ->
  destructure body (str "challengeType") = Normal challengeType ->
  Js.truthy challenge && Js.truthy challengeType = true ->
  fetchExpertDatabase h st = (Normal experts, st', tr) ->
  phase2 h body st
  = match phase2_message h challengeType challenge with
    | Normal message =>
        (Normal (reply_of (parsed ← model_output h (phase2_system experts) (VStr message);
                           mret (phase2_body parsed))),
         st', tr ++ gateway_trace h (phase2_system experts) (VStr message))
    | Throw e => (Normal (error_reply 500 (err_message e)), st', tr)
    end.
Proof.
  intros Hc Hy Ht Hfetch. unfold phase2, model_output, phase2_body, phase2_system.
  unfold mbind at 1 2 3, M_bind, lift. rewrite Hc, Hy. simpl.
  rewrite <- negb_andb, Ht. simpl.
  unfold try_catch, mbind at 1, M_bind. rewrite Hfetch.
  unfold_monad.
  destruct (phase2_message h challengeType challenge) as [message|e]; simpl.
  - rewrite callClaude_run.
    destruct (gateway h _ _) as [response|e]; simpl.
    + destruct (json_parse h response); simpl; now rewrite !app_nil_r.
    + now rewrite !app_nil_r.
  - now rewrite !app_nil_r.
Qed.

Lemma phase3_rejected (body challenge team : value) (st : store) :
  destructure body (str "challenge") = Normal challenge ->
  destructure body (str "team") = Normal team ->
  Js.truthy challenge && Js.truthy team = false ->
  phase3 h body st
  = (Normal (error_reply 400 (str "Challenge and team required")), st, []).
Proof.
  intros Hc Hy Ht. unfold phase3. unfold_monad. rewrite Hc, Hy. simpl.
  rewrite <- negb_andb, Ht. reflexivity.
Qed.

Lemma phase3_run (body challenge team : value) (st : store) :
  destructure body (str "challenge") = Normal challenge ->
  destructure body (str "team") = Normal team ->
  Js.truthy challenge && Js.truthy team = true ->
  phase3 h body st
  = match phase3_inputs h challenge team with
    | Normal (systemPrompt, message) =>
        (Normal (reply_of (parsed ← model_output h systemPrompt message;
                           mret (phase3_body parsed))),
         st, gateway_trace h systemPrompt message)
    | Throw e => (Normal (error_reply 500 (err_message e)), st, [])
    end.
Proof.
  intros Hc Hy Ht. unfold phase3, phase3_inputs, model_output, phase3_body.
  unfold_monad. rewrite Hc, Hy. simpl. rewrite <- negb_andb, Ht. simpl.
  destruct (team_names team) as [names|e]; simpl; [|reflexivity].
  destruct (array_join h (str ", ") names) as [teamNames|e]; simpl; [|reflexivity].
  destruct (phase3_message h challenge) as [message|e]; simpl; [|reflexivity].
  rewrite callClaude_run.
  destruct (gateway h _ _) as [response|e]; simpl.
  - destruct (json_parse h response); simpl; now rewrite ?app_nil_r.
  - now rewrite ?app_nil_r.
Qed.

End Handlers.

(** ** Reply bodies *)

Ltac str_neq := let E := fresh in intros E; vm_compute in E; discriminate E.

Section Bodies.

Variable parsed : value.


Lemma spread_lookup_phase (phase_key : jsstring) (v : value) :
  Js.spread (Js.set ∅ phase_key v) parsed !! phase_key
  = Some (default v (Js.own_props parsed !! phase_key)).
Proof.
  unfold Js.spread, Js.set. rewrite lookup_union, lookup_insert_eq.
  now destruct (Js.own_props parsed !! phase_key).
Qed.

Lemma phase2_body_swapAvailable :
  phase2_body parsed !! str "swapAvailable" = Some (VBool true).
Proof.
  unfold phase2_body, Js.set at 1 2.
  rewrite lookup_insert_ne by str_neq. apply lookup_insert_eq.
Qed.

Lemma phase2_body_swapLimit :
  phase2_body parsed !! str "swapLimit" = Some (num 3).
Proof. unfold phase2_body, Js.set at 1. apply lookup_insert_eq. Qed.


Lemma phase3_body_totalQuestions :
  phase3_body parsed !! str "totalQuestions" = Some (num 5).
Proof. unfold phase3_body, Js.set at 1. apply lookup_insert_eq. Qed.

Lemma phase1_body_phase :
  phase1_body parsed !! str "phase"
  = Some (default (num 1) (Js.own_props parsed !! str "phase")).
Proof. apply spread_lookup_phase. Qed.

Lemma phase2_body_phase :
  phase2_body parsed !! str "phase"
  = Some (default (num 2) (Js.own_props parsed !! str "phase")).
Proof.
  unfold phase2_body, Js.set at 1 2.
  rewrite !lookup_insert_ne by str_neq. apply spread_lookup_phase.
Qed.

Lemma phase3_body_phase :
  phase3_body parsed !! str "phase"
  = Some (default (num 3) (Js.own_props parsed !! str "phase")).
Proof.
  unfold phase3_body, Js.set at 1.
  rewrite !lookup_insert_ne by str_neq. apply spread_lookup_phase.
Qed.

End Bodies.

(** ** Replies and traces of the handlers, case by case *)

Section Cases.

Variable h : host.

Lemma model_output_parsed (systemPrompt userMessage parsed : value) :
  model_output h systemPrompt userMessage = Normal parsed ->
  exists text, JSON_parse h text = Normal parsed.
Proof.
  unfold model_output, json_parse. unfold_monad.
  destruct (gateway h _ _) as [response|]; [|discriminate].
  destruct (to_string h response) as [text|]; [|discriminate]. eauto.
Qed.

Lemma reply_of_ok (c : completion value) (build : value -> gmap jsstring value) (r : reply) :
  reply_of (parsed ← c; mret (build parsed)) = r ->
  status_code r = 200 ->
  exists parsed, c = Normal parsed /\ json r = VObj (build parsed).
Proof.
  unfold_monad. destruct c as [parsed|e]; simpl; intros <-; unfold error_reply; simpl.
  - eauto.
  - discriminate.
Qed.

Lemma reply_of_not_400 (c : completion (gmap jsstring value)) :
  status_code (reply_of c) <> 400.
Proof. destruct c; discriminate. Qed.

Lemma gets_app (a b : list event) : gets (a ++ b) = (gets a + gets b)%nat.
Proof. unfold gets. now rewrite List.filter_app, length_app. Qed.

Lemma posts_app (a b : list event) : posts (a ++ b) = (posts a + posts b)%nat.
Proof. unfold posts. now rewrite List.filter_app, length_app. Qed.

(** A directory read always returns, with at most one fetch and no post. *)
Lemma fetch_returns (st : store) :
  exists experts st' tr,
    fetchExpertDatabase h st = (Normal experts, st', tr)
    /\ (gets tr <= 1)%nat /\ posts tr = 0%nat.
Proof.
  destruct (fetch_cases h st) as [(tr & E & Hg & Hp)|(data & E)].
  - eauto 10.
  - do 3 eexists. split; [exact E|]. unfold gets, posts; simpl. split; [lia|reflexivity].
Qed.


(** The three handlers, whatever the body: what is replied, the store left
    and the trace. *)
Lemma phase1_cases (body : value) (st : store) :
  (exists e, phase1 h body st = (Throw e, st, []))
  \/ phase1 h body st = (Normal (error_reply 400 (str "Challenge required")), st, [])
  \/ (exists challenge,
        destructure body (str "challenge") = Normal challenge
        /\ Js.truthy challenge = true
        /\ phase1 h body st
           = (Normal (reply_of (parsed ← model_output h (VStr phase1_prompt) challenge;
                                mret (phase1_body parsed))),
              st, gateway_trace h (VStr phase1_prompt) challenge)).
Proof.
  destruct (destructure body (str "challenge")) as [challenge|e] eqn:Hc.
  - destruct (Js.truthy challenge) eqn:Ht.
    + right; right. exists challenge. eauto using phase1_run.
    + right; left. eauto using phase1_rejected.
  - left. exists e. unfold phase1. unfold_monad. now rewrite Hc.
Qed.

Lemma phase2_cases (body : value) (st : store) :
  (exists e, phase2 h body st = (Throw e, st, []))
  \/ phase2 h body st
     = (Normal (error_reply 400 (str "Challenge and challengeType required")), st, [])
  \/ (exists experts st' tr,
        fetchExpertDatabase h st = (Normal experts, st', tr)
        /\ ((exists e, phase2 h body st = (Normal (error_reply 500 (err_message e)), st', tr))
            \/ (exists message,
                  phase2 h body st
                  = (Normal (reply_of (parsed ← model_output h (phase2_system experts) (VStr message);
                                       mret (phase2_body parsed))),
                     st', tr ++ gateway_trace h (phase2_system experts) (VStr message))))).
Proof.
  destruct (destructure body (str "challenge")) as [challenge|e] eqn:Hc.
  2: { left. exists e. unfold phase2. unfold_monad. now rewrite Hc. }
  destruct (destructure body (str "challengeType")) as [challengeType|e] eqn:Hy.
  2: { left. exists e. unfold phase2. unfold_monad. now rewrite Hc, Hy. }
  destruct (Js.truthy challenge && Js.truthy challengeType) eqn:Ht.
  - right; right. destruct (fetch_returns st) as (experts & st' & tr & E & _).
    exists experts, st', tr. split; [exact E|].
    rewrite (phase2_run h _ _ _ _ _ _ _ Hc Hy Ht E).
    destruct (phase2_message h challengeType challenge); eauto.
  - right; left. eauto using phase2_rejected.
Qed.

Lemma phase3_cases (body : value) (st : store) :
  (exists e, phase3 h body st = (Throw e, st, []))
  \/ phase3 h body st
     = (Normal (error_reply 400 (str "Challenge and team required")), st, [])
  \/ (exists e, phase3 h body st = (Normal (error_reply 500 (err_message e)), st, []))
  \/ (exists systemPrompt message,
        phase3 h body st
        = (Normal (reply_of (parsed ← model_output h systemPrompt message;
                             mret (phase3_body parsed))),
           st, gateway_trace h systemPrompt message)).
Proof.
  destruct (destructure body (str "challenge")) as [challenge|e] eqn:Hc.
  2: { left. exists e. unfold phase3. unfold_monad. now rewrite Hc. }
  destruct (destructure body (str "team")) as [team|e] eqn:Hy.
  2: { left. exists e. unfold phase3. unfold_monad. now rewrite Hc, Hy. }
  destruct (Js.truthy challenge && Js.truthy team) eqn:Ht.
  - right; right. rewrite (phase3_run h _ _ _ _ Hc Hy Ht).
    destruct (phase3_inputs h challenge team) as [[systemPrompt message]|e]; eauto.
  - right; left. eauto using phase3_rejected.
Qed.

End Cases.

(** ** The directory in every reachable store *)

Lemma reachable_available (st : store) :
  reachable st ->
  Forall (fun e => firstName e <> [] /\ status e = 0) (expertDatabase st).
Proof.
  assert (Hfetch : forall h st0,
    Forall (fun e => firstName e <> [] /\ status e = 0) (expertDatabase st0) ->
    Forall (fun e => firstName e <> [] /\ status e = 0)
      (expertDatabase (store_of (fetchExpertDatabase h st0)))).
  { intros h st0 H0. destruct (fetch_cases h st0) as [(tr & E & _)|(data & E)];
      rewrite E; unfold store_of; simpl; [exact H0 | apply directory_available]. }
  induction 1 as [|h st _ IH|h body st _ IH|h body st _ IH|h body st _ IH].
  - constructor.
  - now apply Hfetch.
  - destruct (phase1_cases h body st) as [(e & E)|[E|(c & _ & _ & E)]];
      rewrite E; exact IH.
  - destruct (phase2_cases h body st)
      as [(e & E)|[E|(experts & st' & tr & Ef & [(e & E)|(m & E)])]];
      rewrite E; unfold store_of; simpl; try exact IH.
    all: specialize (Hfetch h st IH); rewrite Ef in Hfetch; exact Hfetch.
  - destruct (phase3_cases h body st) as [(e & E)|[E|[(e & E)|(s & m & E)]]];
      rewrite E; exact IH.
Qed.

(** * The claims of the specification *)

Import Examples.

(** ** Expert directory cache *)

(** C1. For every CSV text the fetch receives, the directory that replaces
    the cache consists of the records of exactly those rows (lines after
    the header) whose first name, column 1 trimmed, is non-empty and whose
    status, column 7, parses to 0, a non-numeric or absent status counting
    as 0; and every record in the directory, before and after, has status
    0. *)
Theorem C1_rows_retained (h : host) (st : store) (data : jsstring) :
  reachable st ->
  fresh h st = false ->
  axios_get h csvUrl = Normal (VStr data) ->
  expertDatabase (store_of (fetchExpertDatabase h st))
  = expert_of_line <$> filter Spec.retained (tail (split LF data))
  /\ (forall line, Spec.retained line
                   <-> Spec.first_name line <> [] /\ Spec.parsed_status line = 0)
  /\ Forall (fun e => status e = 0) (expertDatabase st)
  /\ Forall (fun e => status e = 0) (expertDatabase (store_of (fetchExpertDatabase h st))).
Proof.
  intros Hreach Hstale Hget.
  rewrite (fetch_refresh h st data Hstale Hget). unfold store_of; simpl.
  split; [reflexivity|]. split; [reflexivity|]. split.
  - eapply Forall_impl; [exact (reachable_available st Hreach)|]. now intros e [_ H].
  - eapply Forall_impl; [exact (directory_available data)|]. now intros e [_ H].
Qed.

Lemma C1_rows_retained_witness :
  expertDatabase (store_of (fetchExpertDatabase host_at_2000 initial_store))
  = expert_of_line <$> filter Spec.retained (tail (split LF feed))
  /\ (forall line, Spec.retained line
                   <-> Spec.first_name line <> [] /\ Spec.parsed_status line = 0)
  /\ Forall (fun e => status e = 0) (expertDatabase initial_store)
  /\ Forall (fun e => status e = 0)
       (expertDatabase (store_of (fetchExpertDatabase host_at_2000 initial_store))).
Proof.
  apply (C1_rows_retained host_at_2000 initial_store feed).
  - exact reach_initial.
  - reflexivity.
  - reflexivity.
Defined.

(** The row of the specification's example is retained, the row of status
    1 is not. *)
Example directory_of_feed : Spec.directory feed = [jane].
Proof. vm_compute. reflexivity. Qed.

(** C2, as stated, fails: the store left by a successful refresh from a
    feed without rows holds a snapshot, the empty one; a read one second
    later fetches the feed again and replaces the cache. *)
Lemma C2_empty_snapshot_refetched :
  Spec.snapshot_taken empty_snapshot
  /\ Date_now host_at_2000 - lastFetchTime empty_snapshot < CACHE_DURATION
  /\ fetchExpertDatabase host_at_2000 empty_snapshot
     = (Normal [jane], {| expertDatabase := [jane]; lastFetchTime := 2000 |},
        [EvDateNow; EvAxiosGet csvUrl]).
Proof.
  split; [|split].
  - apply (Spec.snapshot_refreshed host_at_1000 initial_store []).
    vm_compute. reflexivity.
  - reflexivity.
  - vm_compute. reflexivity.
Qed.

(** C2, amended. A read of a non-empty cache whose age is below the window
    of five minutes makes no network call: it reads the clock, returns the
    cached sequence and leaves the store as it was. *)
Theorem C2_fresh_cache_read (h : host) (st : store) :
  expertDatabase st <> [] ->
  Date_now h - lastFetchTime st < CACHE_DURATION ->
  fetchExpertDatabase h st = (Normal (expertDatabase st), st, [EvDateNow]).
Proof.
  intros Hne Hage. apply fetch_fresh. unfold fresh.
  apply andb_true_iff. split.
  - destruct (expertDatabase st); [contradiction|]. reflexivity.
  - now apply Z.ltb_lt.
Qed.

Lemma C2_fresh_cache_read_witness :
  expertDatabase jane_snapshot <> []
  /\ Date_now host_at_2000 - lastFetchTime jane_snapshot < CACHE_DURATION
  /\ fetchExpertDatabase host_at_2000 jane_snapshot
     = (Normal (expertDatabase jane_snapshot), jane_snapshot, [EvDateNow]).
Proof.
  split; [discriminate|]. split; [reflexivity|].
  apply (C2_fresh_cache_read host_at_2000 jane_snapshot).
  - discriminate.
  - reflexivity.
Defined.

(** C4. When the fetch is attempted and fails, by a transport error or
    because the data cannot be split into lines, the read returns the
    cached sequence and leaves the cache and the time of the last refresh
    as they were: the error is logged, not thrown, and a non-empty cache
    stays non-empty. *)
Theorem C4_failed_fetch_keeps_cache (h : host) (st : store) (e : js_error) :
  fresh h st = false ->
  (axios_get h csvUrl = Throw e
   \/ exists data, axios_get h csvUrl = Normal data /\ split_lines data = Throw e) ->
  fetchExpertDatabase h st
  = (Normal (expertDatabase st), st,
     [EvDateNow; EvAxiosGet csvUrl;
      EvConsoleError (str "Error fetching expert database:") (inr e)])
  /\ (expertDatabase st <> [] ->
      expertDatabase (store_of (fetchExpertDatabase h st)) <> []).
Proof.
  intros Hstale Hfail.
  assert (E : feed_lines h = Throw e).
  { unfold feed_lines. unfold_monad.
    destruct Hfail as [-> | (data & -> & Hs)]; [reflexivity | exact Hs]. }
  rewrite (fetch_failure h st e Hstale E). split; [reflexivity|].
  intros Hne. exact Hne.
Qed.

Lemma C4_failed_fetch_keeps_cache_witness :
  fetchExpertDatabase host_offline jane_snapshot
  = (Normal [jane], jane_snapshot,
     [EvDateNow; EvAxiosGet csvUrl;
      EvConsoleError (str "Error fetching expert database:") (inr network_error)])
  /\ (expertDatabase jane_snapshot <> [] ->
      expertDatabase (store_of (fetchExpertDatabase host_offline jane_snapshot)) <> []).
Proof.
  apply (C4_failed_fetch_keeps_cache host_offline jane_snapshot network_error).
  - reflexivity.
  - left. reflexivity.
Defined.

(** A feed that arrives as something other than a string fails in the same
    way. *)
Example fetch_of_number :
  fetchExpertDatabase (a_host 900000 (Normal (num 42)) no_team_text no_team) jane_snapshot
  = (Normal [jane], jane_snapshot,
     [EvDateNow; EvAxiosGet csvUrl;
      EvConsoleError (str "Error fetching expert database:")
        (inr (TypeError (str "response.data.split is not a function")))]).
Proof. vm_compute. reflexivity. Qed.

(** ** Phase handlers *)

Section Success.

Variable h : host.

(** The body of a success reply is the literal of the handler around the
    parsed output of the model. *)
Lemma phase1_success (body : value) (st : store) (r : reply) :
  completion_of (phase1 h body st) = Normal r ->
  status_code r = 200 ->
  exists parsed text,
    JSON_parse h text = Normal parsed /\ json r = VObj (phase1_body parsed).
Proof.
  intros Hr H200.
  destruct (phase1_cases h body st) as [(e & E)|[E|(c & _ & _ & E)]];
    rewrite E in Hr; unfold completion_of in Hr; simpl in Hr;
    try discriminate; injection Hr as Hr.
  - subst r. discriminate H200.
  - apply reply_of_ok in Hr as (parsed & Hm & Hj); [|exact H200].
    apply model_output_parsed in Hm as (text & Hp). eauto.
Qed.

Lemma phase2_success (body : value) (st : store) (r : reply) :
  completion_of (phase2 h body st) = Normal r ->
  status_code r = 200 ->
  exists parsed text,
    JSON_parse h text = Normal parsed /\ json r = VObj (phase2_body parsed).
Proof.
  intros Hr H200.
  destruct (phase2_cases h body st)
    as [(e & E)|[E|(experts & st' & tr & _ & [(e & E)|(m & E)])]];
    rewrite E in Hr; unfold completion_of in Hr; simpl in Hr;
    try discriminate; injection Hr as Hr.
  - subst r. discriminate H200.
  - subst r. discriminate H200.
  - apply reply_of_ok in Hr as (parsed & Hm & Hj); [|exact H200].
    apply model_output_parsed in Hm as (text & Hp). eauto.
Qed.

Lemma phase3_success (body : value) (st : store) (r : reply) :
  completion_of (phase3 h body st) = Normal r ->
  status_code r = 200 ->
  exists parsed text,
    JSON_parse h text = Normal parsed /\ json r = VObj (phase3_body parsed).
Proof.
  intros Hr H200.
  destruct (phase3_cases h body st) as [(e & E)|[E|[(e & E)|(s & m & E)]]];
    rewrite E in Hr; unfold completion_of in Hr; simpl in Hr;
    try discriminate; injection Hr as Hr.
  - subst r. discriminate H200.
  - subst r. discriminate H200.
  - apply reply_of_ok in Hr as (parsed & Hm & Hj); [|exact H200].
    apply model_output_parsed in Hm as (text & Hp). eauto.
Qed.

End Success.




(** C5. Every successful phase 3 reply carries [totalQuestions: 5],
    whatever the model's output parsed to. *)
Theorem C5_total_questions (h : host) (body : value) (st : store) (r : reply) :
  completion_of (phase3 h body st) = Normal r ->
  status_code r = 200 ->
  exists parsed text props,
    JSON_parse h text = Normal parsed
    /\ json r = VObj props
    /\ props = phase3_body parsed
    /\ props !! str "totalQuestions" = Some (num 5).
Proof.
  intros Hr H200.
  destruct (phase3_success h body st r Hr H200) as (parsed & text & Hp & Hj).
  exists parsed, text, (phase3_body parsed).
  auto using phase3_body_totalQuestions.
Qed.

(** The model answers [{"questionNumber":9,"totalQuestions":12}]. *)
Lemma C5_total_questions_witness :
  exists parsed text props,
    JSON_parse twelve_host text = Normal parsed
    /\ json (ok_reply (phase3_body twelve)) = VObj props
    /\ props = phase3_body parsed
    /\ props !! str "totalQuestions" = Some (num 5).
Proof.
  apply (C5_total_questions twelve_host (body3 ada_team) initial_store).
  - vm_compute. reflexivity.
  - reflexivity.
Defined.




(** A body that is an array has no [challenge] either, and is answered in
    the same way. *)
Example array_body_rejected :
  phase1 host_at_2000 (VArr [VStr (str "Should I change jobs?")]) jane_snapshot
  = (Normal {| status_code := 400;
               json := VObj {[ str "error" := VStr (str "Challenge required") ]} |},
     jane_snapshot, []).
Proof. vm_compute. reflexivity. Qed.




(** C8. In the run of any phase handler the gateway is posted to at most
    once and the feed is fetched at most once (never by phases 1 and 3). *)
Theorem C8_remote_calls_once (h : host) (body : value) (st : store) :
  ((posts (trace_of (phase1 h body st)) <= 1)%nat
   /\ gets (trace_of (phase1 h body st)) = 0%nat)
  /\ ((posts (trace_of (phase2 h body st)) <= 1)%nat
      /\ (gets (trace_of (phase2 h body st)) <= 1)%nat)
  /\ ((posts (trace_of (phase3 h body st)) <= 1)%nat
      /\ gets (trace_of (phase3 h body st)) = 0%nat).
Proof.
  split; [|split].
  - destruct (phase1_cases h body st) as [(e & E)|[E|(c & _ & _ & E)]];
      rewrite E; unfold trace_of; simpl; try (split; [apply Nat.le_0_l|reflexivity]).
    destruct (gateway_trace_posts h (VStr phase1_prompt) c) as [-> ->]. auto.
  - destruct (phase2_cases h body st)
      as [(e & E)|[E|(experts & st' & tr & Ef & [(e & E)|(m & E)])]];
      rewrite E; unfold trace_of; simpl; try (split; apply Nat.le_0_l).
    all: destruct (fetch_returns h st) as (experts' & st'' & tr' & Ef' & Hg & Hp).
    all: rewrite Ef in Ef'; injection Ef' as <- <- <-.
    + rewrite Hp. auto.
    + rewrite posts_app, gets_app, Hp.
      destruct (gateway_trace_posts h (phase2_system experts) (VStr m)) as [-> ->].
      split; lia.
  - destruct (phase3_cases h body st) as [(e & E)|[E|[(e & E)|(s & m & E)]]];
      rewrite E; unfold trace_of; simpl; try (split; [apply Nat.le_0_l|reflexivity]).
    destruct (gateway_trace_posts h s m) as [-> ->]. auto.
Qed.

(** C9. The model can override the [phase] field of a success reply, not
    the fields written after the spread.  The model answers [{"phase":7}]:
    the replies of the three handlers carry [phase: 7].  In general the
    [phase] of a success reply is the [phase] property of the parsed
    output when it has one and the handler's constant otherwise, while
    [swapAvailable], [swapLimit] and [totalQuestions] are the handler's
    constants whatever the output holds. *)
Theorem C9_phase_overridden :
  (JSON_parse phase7_host phase7_text = Normal phase7
   /\ (completion_of (phase1 phase7_host body1 initial_store)
       = Normal (ok_reply (phase1_body phase7))
       /\ phase1_body phase7 !! str "phase" = Some (num 7) /\ num 7 <> num 1)
   /\ (completion_of (phase2 phase7_host body2 initial_store)
       = Normal (ok_reply (phase2_body phase7))
       /\ phase2_body phase7 !! str "phase" = Some (num 7) /\ num 7 <> num 2)
   /\ (completion_of (phase3 phase7_host (body3 ada_team) initial_store)
       = Normal (ok_reply (phase3_body phase7))
       /\ phase3_body phase7 !! str "phase" = Some (num 7) /\ num 7 <> num 3))
  /\ (forall h body st r,
        completion_of (phase1 h body st) = Normal r -> status_code r = 200 ->
        exists parsed text props,
          JSON_parse h text = Normal parsed /\ json r = VObj props
          /\ props !! str "phase"
             = Some (default (num 1) (Js.own_props parsed !! str "phase")))
  /\ (forall h body st r,
        completion_of (phase2 h body st) = Normal r -> status_code r = 200 ->
        exists parsed text props,
          JSON_parse h text = Normal parsed /\ json r = VObj props
          /\ props !! str "phase"
             = Some (default (num 2) (Js.own_props parsed !! str "phase"))
          /\ props !! str "swapAvailable" = Some (VBool true)
          /\ props !! str "swapLimit" = Some (num 3))
  /\ (forall h body st r,
        completion_of (phase3 h body st) = Normal r -> status_code r = 200 ->
        exists parsed text props,
          JSON_parse h text = Normal parsed /\ json r = VObj props
          /\ props !! str "phase"
             = Some (default (num 3) (Js.own_props parsed !! str "phase"))
          /\ props !! str "totalQuestions" = Some (num 5)).
Proof.
  split; [|split; [|split]].
  - repeat split; try (vm_compute; reflexivity); discriminate.
  - intros h body st r Hr H200.
    destruct (phase1_success h body st r Hr H200) as (parsed & text & Hp & Hj).
    exists parsed, text, (phase1_body parsed). auto using phase1_body_phase.
  - intros h body st r Hr H200.
    destruct (phase2_success h body st r Hr H200) as (parsed & text & Hp & Hj).
    exists parsed, text, (phase2_body parsed).
    auto 6 using phase2_body_phase, phase2_body_swapAvailable, phase2_body_swapLimit.
  - intros h body st r Hr H200.
    destruct (phase3_success h body st r Hr H200) as (parsed & text & Hp & Hj).
    exists parsed, text, (phase3_body parsed).
    auto using phase3_body_phase, phase3_body_totalQuestions.
Qed.

(** The model answers [{"questionNumber":9,"totalQuestions":12}]; the
    reply has the handler's [phase] and [totalQuestions]. *)
Lemma C9_phase_overridden_witness :
  exists parsed text props,
    JSON_parse twelve_host text = Normal parsed
    /\ json (ok_reply (phase3_body twelve)) = VObj props
    /\ props !! str "phase"
       = Some (default (num 3) (Js.own_props parsed !! str "phase"))
    /\ props !! str "totalQuestions" = Some (num 5).
Proof.
  apply (proj2 (proj2 (proj2 C9_phase_overridden))
           twelve_host (body3 ada_team) initial_store).
  - vm_compute. reflexivity.
  - reflexivity.
Defined.

(** C10. A phase 3 request with a truthy [challenge] is answered with
    status 400 exactly when its [team] is missing or falsy.  With the empty
    array as [team] the request is accepted: the gateway is called, once,
    with an empty list of names in the system prompt, and the reply is the
    gateway's outcome. *)
Theorem C10_empty_team_accepted (h : host) (props : gmap jsstring value)
    (st : store) (challenge : value) :
  props !! str "challenge" = Some challenge ->
  Js.truthy challenge = true ->
  (exists r st' tr,
     phase3 h (VObj props) st = (Normal r, st', tr)
     /\ (status_code r = 400
         <-> Js.truthy (default VUndefined (props !! str "team")) = false))
  /\ (props !! str "team" = Some (VArr []) ->
      forall c, to_string h challenge = Normal c ->
      exists r,
        phase3 h (VObj props) st
        = (Normal r, st,
           gateway_trace h (VStr (phase3_prompt [])) (VStr (str "Challenge: " ++ c)))
        /\ status_code r <> 400
        /\ posts (gateway_trace h (VStr (phase3_prompt []))
                    (VStr (str "Challenge: " ++ c))) = 1%nat).
Proof.
  intros Hc Ht.
  assert (Hdc : destructure (VObj props) (str "challenge") = Normal challenge)
    by (simpl; now rewrite Hc).
  assert (Hdt : destructure (VObj props) (str "team")
                = Normal (default VUndefined (props !! str "team")))
    by reflexivity.
  split.
  - destruct (Js.truthy (default VUndefined (props !! str "team"))) eqn:Hteam.
    + rewrite (phase3_run h _ _ _ st Hdc Hdt) by (now rewrite Ht, Hteam).
      destruct (phase3_inputs h challenge _) as [[systemPrompt message]|e].
      * do 3 eexists. split; [reflexivity|].
        split; [intros H400; now apply reply_of_not_400 in H400 | discriminate].
      * do 3 eexists. split; [reflexivity|]. split; discriminate.
    + rewrite (phase3_rejected h _ _ _ st Hdc Hdt) by (now rewrite Ht, Hteam).
      do 3 eexists. split; [reflexivity|]. split; reflexivity.
  - intros Hteam c Hs. rewrite Hteam in Hdt.
    rewrite (phase3_run h _ _ _ st Hdc Hdt) by (now rewrite Ht).
    unfold phase3_inputs, phase3_message. simpl. rewrite Hs. simpl.
    eexists. split; [reflexivity|]. split; [apply reply_of_not_400|].
    apply gateway_trace_posts.
Qed.

Lemma C10_empty_team_accepted_witness :
  (exists r st' tr,
     phase3 twelve_host (body3 (VArr [])) initial_store = (Normal r, st', tr)
     /\ (status_code r = 400
         <-> Js.truthy (default VUndefined
                          (Js.set (Js.set ∅ (str "challenge") challenge_text)
                             (str "team") (VArr []) !! str "team")) = false))
  /\ (Js.set (Js.set ∅ (str "challenge") challenge_text) (str "team") (VArr [])
        !! str "team" = Some (VArr []) ->
      forall c, to_string twelve_host challenge_text = Normal c ->
      exists r,
        phase3 twelve_host (body3 (VArr [])) initial_store
        = (Normal r, initial_store,
           gateway_trace twelve_host (VStr (phase3_prompt []))
             (VStr (str "Challenge: " ++ c)))
        /\ status_code r <> 400
        /\ posts (gateway_trace twelve_host (VStr (phase3_prompt []))
                    (VStr (str "Challenge: " ++ c))) = 1%nat).
Proof.
  apply (C10_empty_team_accepted twelve_host
           (Js.set (Js.set ∅ (str "challenge") challenge_text) (str "team") (VArr []))
           initial_store challenge_text).
  - vm_compute. reflexivity.
  - reflexivity.
Defined.

(** The run of that request: status 200, one post. *)
Example empty_team_run :
  phase3 twelve_host (body3 (VArr [])) initial_store
  = (Normal (ok_reply (phase3_body twelve)), initial_store,
     [EvAxiosPost CLAUDE_API_URL
        (claude_request (VStr (phase3_prompt []))
           (VStr (str "Challenge: Should I change jobs?")))
        (claude_config twelve_host)]).
Proof. vm_compute. reflexivity. Qed.

(** * Further properties of the code *)

(** ** Strings *)

Section StringFacts.

Lemma split_nonempty (sep : N) (s : jsstring) : split sep s <> [].
Proof.
  destruct s as [|c r]; simpl; [discriminate|].
  destruct (c =? sep)%N; [discriminate|]. destruct (split sep r); discriminate.
Qed.

(** Splitting distributes over an occurrence of the separator. *)
Lemma split_app (sep : N) (a b : jsstring) :
  split sep (a ++ sep :: b) = split sep a ++ split sep b.
Proof.
  induction a as [|c r IH]; simpl.
  - now rewrite N.eqb_refl.
  - destruct (c =? sep)%N; [now rewrite IH|].
    rewrite IH. pose proof (split_nonempty sep r) as Hne.
    destruct (split sep r); [contradiction|reflexivity].
Qed.

(** The pieces of a split hold the characters of the string, without the
    separator. *)
Lemma split_pieces (P : N -> Prop) (sep : N) (s : jsstring) :
  Forall P s -> Forall (Forall (fun c => P c /\ c <> sep)) (split sep s).
Proof.
  induction 1 as [|c r Hc _ IH]; simpl; [repeat constructor|].
  destruct (N.eqb_spec c sep) as [->|Hne]; [now constructor|].
  destruct (split sep r) as [|p ps]; [repeat constructor; auto|].
  inversion IH; subst. constructor; [|assumption]. constructor; auto.
Qed.

Lemma trimStart_Forall (P : N -> Prop) (s : jsstring) :
  Forall P s -> Forall P (trimStart s).
Proof.
  induction 1 as [|c r Hc Hr IH]; simpl; [constructor|].
  destruct (is_whitespace c); [exact IH | now constructor].
Qed.

Lemma trim_Forall (P : N -> Prop) (s : jsstring) :
  Forall P s -> Forall P (trim s).
Proof.
  intros H. unfold trim, trimEnd.
  apply Forall_rev, trimStart_Forall, Forall_rev, trimStart_Forall, H.
Qed.

Lemma trimStart_snoc (s : jsstring) (c : N) :
  is_whitespace c = false -> trimStart (s ++ [c]) = trimStart s ++ [c].
Proof.
  intros Hc. induction s as [|d r IH]; simpl; [now rewrite Hc|].
  destruct (is_whitespace d); [exact IH | reflexivity].
Qed.

Lemma trimEnd_cons (c : N) (r : jsstring) :
  is_whitespace c = false -> trimEnd (c :: r) = c :: trimEnd r.
Proof.
  intros Hc. unfold trimEnd. simpl. rewrite trimStart_snoc by exact Hc.
  now rewrite rev_app_distr.
Qed.

Lemma trimStart_idem (s : jsstring) : trimStart (trimStart s) = trimStart s.
Proof.
  destruct (trimStart s) as [|c r] eqn:E; [reflexivity|].
  apply trimStart_head in E. simpl. now rewrite E.
Qed.

Lemma trimEnd_idem (s : jsstring) : trimEnd (trimEnd s) = trimEnd s.
Proof. unfold trimEnd. now rewrite rev_involutive, trimStart_idem. Qed.

(** Trimming a trimmed string changes nothing. *)
Lemma trim_idem (s : jsstring) : trim (trim s) = trim s.
Proof.
  unfold trim. destruct (trimStart s) as [|c r] eqn:E; [reflexivity|].
  apply trimStart_head in E. rewrite trimEnd_cons by exact E.
  simpl. rewrite E. rewrite trimEnd_cons by exact E.
  now rewrite trimEnd_idem.
Qed.

(** White space at the end of a string is trimmed away. *)
Lemma trimEnd_snoc (s : jsstring) (c : N) :
  is_whitespace c = true -> trimEnd (s ++ [c]) = trimEnd s.
Proof.
  intros Hc. unfold trimEnd. rewrite rev_app_distr. simpl. now rewrite Hc.
Qed.

Lemma trimStart_app (s t : jsstring) :
  trimStart s <> [] -> trimStart (s ++ t) = trimStart s ++ t.
Proof.
  induction s as [|x r IH]; simpl; [contradiction|].
  destruct (is_whitespace x); [exact IH | reflexivity].
Qed.

Lemma trim_snoc (s : jsstring) (c : N) :
  is_whitespace c = true -> trim (s ++ [c]) = trim s.
Proof.
  intros Hc. unfold trim.
  destruct (trimStart s) as [|d r] eqn:E.
  - apply trimStart_nil in E.
    assert (E' : trimStart (s ++ [c]) = []).
    { apply trimStart_nil, Forall_app. split; [exact E|]. now repeat constructor. }
    now rewrite E'.
  - rewrite trimStart_app by (rewrite E; discriminate).
    rewrite E. now apply trimEnd_snoc.
Qed.

End StringFacts.

(** ** The expert directory *)

(** A property of every directory a feed describes holds of the directory
    of every reachable store. *)
Lemma reachable_directory (P : expert -> Prop) :
  (forall data, Forall P (Spec.directory data)) ->
  forall st, reachable st -> Forall P (expertDatabase st).
Proof.
  intros HP.
  assert (Hfetch : forall h st0,
    Forall P (expertDatabase st0) ->
    Forall P (expertDatabase (store_of (fetchExpertDatabase h st0)))).
  { intros h st0 H0. destruct (fetch_cases h st0) as [(tr & E & _)|(data & E)];
      rewrite E; unfold store_of; simpl; [exact H0 | apply HP]. }
  induction 1 as [|h st _ IH|h body st _ IH|h body st _ IH|h body st _ IH].
  - constructor.
  - now apply Hfetch.
  - destruct (phase1_cases h body st) as [(e & E)|[E|(c & _ & _ & E)]];
      rewrite E; exact IH.
  - destruct (phase2_cases h body st)
      as [(e & E)|[E|(experts & st' & tr & Ef & [(e & E)|(m & E)])]];
      rewrite E; unfold store_of; simpl; try exact IH.
    all: specialize (Hfetch h st IH); rewrite Ef in Hfetch; exact Hfetch.
  - destruct (phase3_cases h body st) as [(e & E)|[E|[(e & E)|(s & m & E)]]];
      rewrite E; exact IH.
Qed.

(** X1. A directory read never throws, whatever the network does, and what
    it returns is the directory the store holds afterwards. *)
Theorem directory_read_never_throws (h : host) (st : store) :
  completion_of (fetchExpertDatabase h st)
  = Normal (expertDatabase (store_of (fetchExpertDatabase h st))).
Proof.
  destruct (fetch_cases h st) as [(tr & E & _)|(data & E)]; now rewrite E.
Qed.

(** X2. A refresh replaces the cache wholesale: the store it leaves depends
    on the feed and on the time read at the start of the call, not on what
    was cached before. *)
Theorem refresh_replaces_cache (h : host) (st1 st2 : store) (data : jsstring) :
  fresh h st1 = false ->
  fresh h st2 = false ->
  axios_get h csvUrl = Normal (VStr data) ->
  store_of (fetchExpertDatabase h st1) = store_of (fetchExpertDatabase h st2)
  /\ lastFetchTime (store_of (fetchExpertDatabase h st1)) = Date_now h.
Proof.
  intros H1 H2 Hget.
  rewrite (fetch_refresh h st1 data H1 Hget), (fetch_refresh h st2 data H2 Hget).
  split; reflexivity.
Qed.

Lemma refresh_replaces_cache_witness :
  store_of (fetchExpertDatabase (a_host 900000 (Normal (VStr feed)) no_team_text no_team)
              initial_store)
  = store_of (fetchExpertDatabase (a_host 900000 (Normal (VStr feed)) no_team_text no_team)
                {| expertDatabase := [jane; jane]; lastFetchTime := 1000 |})
  /\ lastFetchTime
       (store_of (fetchExpertDatabase
                    (a_host 900000 (Normal (VStr feed)) no_team_text no_team)
                    initial_store))
     = Date_now (a_host 900000 (Normal (VStr feed)) no_team_text no_team).
Proof.
  apply (refresh_replaces_cache
           (a_host 900000 (Normal (VStr feed)) no_team_text no_team)
           initial_store {| expertDatabase := [jane; jane]; lastFetchTime := 1000 |}
           feed); reflexivity.
Defined.

Lemma stale_trace (h : host) (st : store) :
  expertDatabase st = [] \/ CACHE_DURATION <= Date_now h - lastFetchTime st ->
  (exists rest, trace_of (fetchExpertDatabase h st)
                = EvDateNow :: EvAxiosGet csvUrl :: rest)
  /\ gets (trace_of (fetchExpertDatabase h st)) = 1%nat
  /\ posts (trace_of (fetchExpertDatabase h st)) = 0%nat.
Proof.
  intros Hstale.
  assert (Hf : fresh h st = false).
  { unfold fresh. apply andb_false_iff. destruct Hstale as [-> | Hage].
    - left. reflexivity.
    - right. now apply Z.ltb_ge. }
  destruct (feed_lines h) as [lines|e] eqn:Hl.
  - apply feed_lines_normal in Hl as (data & Hget & _).
    rewrite (fetch_refresh h st data Hf Hget). unfold trace_of; simpl. eauto.
  - rewrite (fetch_failure h st e Hf Hl). unfold trace_of; simpl. eauto.
Qed.

(** X3. A read of an empty cache, or of one that is five minutes old or
    older, goes to the network exactly once, for the sheet's CSV export,
    right after reading the clock. *)
Theorem stale_read_fetches_once (h : host) (st : store) :
  expertDatabase st = [] \/ CACHE_DURATION <= Date_now h - lastFetchTime st ->
  (exists rest, trace_of (fetchExpertDatabase h st)
                = EvDateNow :: EvAxiosGet csvUrl :: rest)
  /\ gets (trace_of (fetchExpertDatabase h st)) = 1%nat
  /\ posts (trace_of (fetchExpertDatabase h st)) = 0%nat.
Proof. apply stale_trace. Qed.

Lemma stale_read_fetches_once_witness :
  (exists rest, trace_of (fetchExpertDatabase host_offline jane_snapshot)
                = EvDateNow :: EvAxiosGet csvUrl :: rest)
  /\ gets (trace_of (fetchExpertDatabase host_offline jane_snapshot)) = 1%nat
  /\ posts (trace_of (fetchExpertDatabase host_offline jane_snapshot)) = 0%nat.
Proof.
  apply (stale_read_fetches_once host_offline jane_snapshot).
  right. vm_compute. discriminate.
Defined.

(** X4. After a refresh that retained at least one row, a read less than
    five minutes later, under any network, returns the same directory
    without a network call and leaves the store as the refresh left it. *)
Theorem read_after_refresh (h1 h2 : host) (st : store) (data : jsstring) :
  fresh h1 st = false ->
  axios_get h1 csvUrl = Normal (VStr data) ->
  expertDatabase (store_of (fetchExpertDatabase h1 st)) <> [] ->
  Date_now h2 - Date_now h1 < CACHE_DURATION ->
  fetchExpertDatabase h2 (store_of (fetchExpertDatabase h1 st))
  = (completion_of (fetchExpertDatabase h1 st),
     store_of (fetchExpertDatabase h1 st), [EvDateNow]).
Proof.
  intros Hf Hget. rewrite (fetch_refresh h1 st data Hf Hget).
  unfold store_of, completion_of; simpl. intros Hne Hage.
  apply fetch_fresh. unfold fresh; simpl. apply andb_true_iff. split.
  - destruct (Spec.directory data); [contradiction | reflexivity].
  - now apply Z.ltb_lt.
Qed.

Lemma read_after_refresh_witness :
  fetchExpertDatabase host_offline
    (store_of (fetchExpertDatabase (a_host 899000 (Normal (VStr feed)) no_team_text no_team)
                 jane_snapshot))
  = (completion_of (fetchExpertDatabase
                      (a_host 899000 (Normal (VStr feed)) no_team_text no_team)
                      jane_snapshot),
     store_of (fetchExpertDatabase
                 (a_host 899000 (Normal (VStr feed)) no_team_text no_team)
                 jane_snapshot),
     [EvDateNow]).
Proof.
  apply (read_after_refresh
           (a_host 899000 (Normal (VStr feed)) no_team_text no_team)
           host_offline jane_snapshot feed).
  - reflexivity.
  - reflexivity.
  - vm_compute. discriminate.
  - reflexivity.
Defined.

(** X5. A failed fetch is not remembered: as long as the clock does not go
    back, the next read goes to the network again. *)
Theorem failed_fetch_retried (h1 h2 : host) (st : store) (e : js_error) :
  fresh h1 st = false ->
  feed_lines h1 = Throw e ->
  Date_now h1 <= Date_now h2 ->
  exists rest,
    trace_of (fetchExpertDatabase h2 (store_of (fetchExpertDatabase h1 st)))
    = EvDateNow :: EvAxiosGet csvUrl :: rest.
Proof.
  intros Hf Hl Hclock. rewrite (fetch_failure h1 st e Hf Hl).
  unfold store_of; simpl.
  apply stale_trace.
  unfold fresh in Hf. apply andb_false_iff in Hf as [Hempty | Hage].
  - left. destruct (expertDatabase st); [reflexivity | discriminate].
  - right. apply Z.ltb_ge in Hage. lia.
Qed.

Lemma failed_fetch_retried_witness :
  exists rest,
    trace_of (fetchExpertDatabase (a_host 900001 (Normal (VStr feed)) no_team_text no_team)
                (store_of (fetchExpertDatabase host_offline jane_snapshot)))
    = EvDateNow :: EvAxiosGet csvUrl :: rest.
Proof.
  apply (failed_fetch_retried host_offline
           (a_host 900001 (Normal (VStr feed)) no_team_text no_team)
           jane_snapshot network_error).
  - reflexivity.
  - reflexivity.
  - vm_compute. discriminate.
Defined.

(** ** The records of the directory *)

Section Records.

Lemma clean_nil : clean [].
Proof. split; [reflexivity | constructor]. Qed.

Lemma clean_No : clean (str "No").
Proof.
  split; [reflexivity|]. repeat constructor; discriminate.
Qed.

(** A column of a line without line feed is clean. *)
Lemma column_clean (line : jsstring) (i : nat) (dflt : jsstring) :
  Forall (fun c => c <> LF) line ->
  clean dflt ->
  clean (column (split COMMA line) i dflt).
Proof.
  intros Hline Hd. unfold column.
  destruct (split COMMA line !! i) as [v|] eqn:Hv; [|exact Hd].
  destruct (JsString.truthy (trim v)); [|exact Hd].
  split; [apply trim_idem|]. apply trim_Forall.
  pose proof (split_pieces _ COMMA line Hline) as Hp.
  rewrite Forall_lookup in Hp. specialize (Hp i v Hv).
  eapply Forall_impl; [exact Hp|]. intros c [H1 H2]. now split.
Qed.

Lemma record_clean (line : jsstring) :
  Forall (fun c => c <> LF) line ->
  Forall clean (attributes (expert_of_line line)).
Proof.
  intros Hline. unfold attributes, expert_of_line, expert_of_values; simpl.
  repeat constructor; apply column_clean; auto using clean_nil, clean_No.
Qed.

Lemma recognizable_nonempty (line : jsstring) :
  recognizable (expert_of_line line) <> [].
Proof.
  unfold expert_of_line, expert_of_values; simpl. unfold column.
  destruct (split COMMA line !! 10%nat) as [v|]; [|discriminate].
  destruct (trim v); simpl; discriminate.
Qed.

Lemma directory_clean (data : jsstring) :
  Forall (fun e => Forall clean (attributes e) /\ recognizable e <> [])
    (Spec.directory data).
Proof.
  unfold Spec.directory, Spec.rows. apply Forall_fmap, Forall_forall.
  intros line Hin. apply list_elem_of_filter in Hin as [_ Hin].
  split; [|apply recognizable_nonempty]. apply record_clean.
  pose proof (split_pieces (fun _ => True) LF data) as Hp.
  assert (Hall : Forall (fun _ : N => True) data) by (apply Forall_forall; auto).
  specialize (Hp Hall). rewrite Forall_forall in Hp.
  assert (Hin' : line ∈ split LF data).
  { destruct (split LF data); [inversion Hin | now right]. }
  specialize (Hp line Hin'). eapply Forall_impl; [exact Hp|]. now intros c [_ H].
Qed.

End Records.

(** X6. Every string attribute of every record the server ever holds is
    trimmed and contains neither a comma nor a line feed; the first name is
    never empty and [recognizable] is never empty (it defaults to
    ['No']). *)
Theorem directory_records_clean (st : store) :
  reachable st ->
  Forall (fun e => Forall clean (attributes e)
                   /\ firstName e <> [] /\ recognizable e <> [])
    (expertDatabase st).
Proof.
  apply (reachable_directory
           (fun e => Forall clean (attributes e)
                     /\ firstName e <> [] /\ recognizable e <> [])).
  intros data. pose proof (directory_clean data) as H1.
  pose proof (directory_available data) as H2.
  rewrite Forall_forall in *. intros e He.
  destruct (H1 e He) as [? ?]. destruct (H2 e He) as [? _]. auto.
Qed.

Lemma directory_records_clean_witness :
  Forall (fun e => Forall clean (attributes e)
                   /\ firstName e <> [] /\ recognizable e <> [])
    (expertDatabase (store_of (fetchExpertDatabase host_at_2000 initial_store))).
Proof.
  apply (directory_records_clean
           (store_of (fetchExpertDatabase host_at_2000 initial_store))).
  apply reach_fetch. exact reach_initial.
Defined.

(** ** The shape of the feed *)

(** X7. The header line is not read: whatever stands before the first line
    feed, the directory consists of the retained lines after it. *)
Theorem header_line_unused (h : host) (st : store) (header body : jsstring) :
  Forall (fun c => c <> LF) header ->
  fresh h st = false ->
  axios_get h csvUrl = Normal (VStr (header ++ LF :: body)) ->
  expertDatabase (store_of (fetchExpertDatabase h st))
  = expert_of_line <$> filter Spec.retained (split LF body).
Proof.
  intros Hh Hf Hget. rewrite (fetch_refresh h st _ Hf Hget).
  unfold store_of, Spec.directory, Spec.rows; simpl.
  rewrite split_app, (split_no_sep LF header Hh). reflexivity.
Qed.

Lemma header_line_unused_witness :
  expertDatabase
    (store_of (fetchExpertDatabase
                 (a_host 5 (Normal (VStr (str "Doe,Jane" ++ LF :: str "Roe,Rick")))
                    no_team_text no_team)
                 initial_store))
  = expert_of_line <$> filter Spec.retained (split LF (str "Roe,Rick")).
Proof.
  apply (header_line_unused
           (a_host 5 (Normal (VStr (str "Doe,Jane" ++ LF :: str "Roe,Rick")))
              no_team_text no_team)
           initial_store (str "Doe,Jane") (str "Roe,Rick")).
  - repeat constructor; discriminate.
  - reflexivity.
  - reflexivity.
Defined.

Lemma blank_not_retained (line : jsstring) :
  trim line = [] -> ~ Spec.retained line.
Proof.
  intros Hb Hr. apply available_retained in Hr.
  rewrite Hb in Hr. discriminate.
Qed.

(** X8. Blank lines add nothing: with a line of white space between two
    lines of the feed, or after its last line (a trailing line feed), a
    refresh leaves the same store as without that line. *)
Theorem blank_lines_ignored (h h' : host) (st : store) (before blank rest : jsstring) :
  trim blank = [] ->
  Forall (fun c => c <> LF) blank ->
  rest = [] \/ (exists after, rest = LF :: after) ->
  Date_now h = Date_now h' ->
  fresh h st = false ->
  axios_get h csvUrl = Normal (VStr (before ++ LF :: blank ++ rest)) ->
  axios_get h' csvUrl = Normal (VStr (before ++ rest)) ->
  store_of (fetchExpertDatabase h st) = store_of (fetchExpertDatabase h' st).
Proof.
  intros Hb Hlf Hrest Hnow Hf Hget Hget'.
  assert (Hf' : fresh h' st = false) by (unfold fresh in *; now rewrite <- Hnow).
  rewrite (fetch_refresh h st _ Hf Hget), (fetch_refresh h' st _ Hf' Hget').
  unfold store_of; simpl. rewrite Hnow.
  enough (E : Spec.directory (before ++ LF :: blank ++ rest)
              = Spec.directory (before ++ rest)) by now rewrite E.
  unfold Spec.directory, Spec.rows.
  pose proof (split_nonempty LF before) as Hne.
  pose proof (blank_not_retained blank Hb) as Hnot.
  destruct Hrest as [-> | (after & ->)].
  - rewrite !app_nil_r, split_app, (split_no_sep LF blank Hlf).
    destruct (split LF before) as [|p ps]; [contradiction|]. simpl.
    rewrite filter_app, filter_cons_False by exact Hnot.
    now rewrite filter_nil, app_nil_r.
  - rewrite !split_app, (split_no_sep LF blank Hlf).
    destruct (split LF before) as [|p ps]; [contradiction|]. simpl.
    rewrite !filter_app, filter_cons_False by exact Hnot. reflexivity.
Qed.

(** The feed of the examples, with and without a trailing line feed. *)
Lemma blank_lines_ignored_witness :
  store_of (fetchExpertDatabase
              (a_host 5 (Normal (VStr (feed ++ LF :: [] ++ []))) no_team_text no_team)
              initial_store)
  = store_of (fetchExpertDatabase
                (a_host 5 (Normal (VStr (feed ++ []))) no_team_text no_team)
                initial_store).
Proof.
  apply (blank_lines_ignored
           (a_host 5 (Normal (VStr (feed ++ LF :: [] ++ []))) no_team_text no_team)
           (a_host 5 (Normal (VStr (feed ++ []))) no_team_text no_team)
           initial_store feed [] []).
  - reflexivity.
  - constructor.
  - left. reflexivity.
  - reflexivity.
  - reflexivity.
  - reflexivity.
  - reflexivity.
Defined.

(** ** Rows *)

Section RowFacts.

Lemma row_kept (line : jsstring) (st : store) :
  Spec.retained line ->
  row line st
  = (Normal tt, with_db st (expertDatabase st ++ [expert_of_line line]), []).
Proof. intros H. rewrite row_run. now rewrite decide_True by exact H. Qed.

Lemma row_dropped (line : jsstring) (st : store) :
  ~ Spec.retained line -> row line st = (Normal tt, st, []).
Proof.
  intros H. rewrite row_run. rewrite decide_False by exact H.
  rewrite app_nil_r. unfold with_db. now destruct st.
Qed.

Lemma digit_nonneg (radix : Z) (c : N) (d : Z) : digit radix c = Some d -> 0 <= d.
Proof.
  unfold digit.
  destruct ((48 <=? c) && (c <=? 57))%N eqn:E1.
  - apply andb_true_iff in E1 as [H _]. apply N.leb_le in H.
    destruct (_ <? radix); intros [= <-]. lia.
  - destruct ((97 <=? c) && (c <=? 122))%N eqn:E2.
    + apply andb_true_iff in E2 as [H _]. apply N.leb_le in H.
      destruct (_ <? radix); intros [= <-]. lia.
    + destruct ((65 <=? c) && (c <=? 90))%N eqn:E3; [|discriminate].
      apply andb_true_iff in E3 as [H _]. apply N.leb_le in H.
      destruct (_ <? radix); intros [= <-]. lia.
Qed.

Lemma digits_nonneg (radix : Z) (s : jsstring) : Forall (fun d => 0 <= d) (digits radix s).
Proof.
  induction s as [|c r IH]; simpl; [constructor|].
  destruct (digit radix c) as [d|] eqn:E; [|constructor].
  constructor; [now apply digit_nonneg in E | exact IH].
Qed.

Lemma number_grows (radix : Z) (ds : list Z) (acc : Z) :
  1 <= radix -> 0 <= acc -> Forall (fun d => 0 <= d) ds ->
  acc <= fold_left (fun a d => a * radix + d) ds acc.
Proof.
  intros Hr. revert acc. induction ds as [|d ds IH]; intros acc Ha Hds; simpl; [lia|].
  inversion Hds; subst. etransitivity; [|apply IH; [nia|assumption]]. nia.
Qed.

(** A text that starts, after white space, with a digit from 1 to 9 reads
    as a positive integer. *)
Lemma parseInt_positive (v rest : jsstring) (c : N) :
  trimStart v = c :: rest -> (49 <= c <= 57)%N ->
  exists z, parseInt v = Some z /\ 0 < z.
Proof.
  intros E Hc. unfold parseInt. rewrite E.
  assert (Hcases : (c = 49 \/ c = 50 \/ c = 51 \/ c = 52 \/ c = 53 \/ c = 54
                    \/ c = 55 \/ c = 56 \/ c = 57)%N) by lia.
  pose proof (digits_nonneg 10 rest) as Hds.
  assert (Hpos : forall d, 1 <= d ->
            0 < 1 * ParseInt.number 10 (d :: digits 10 rest)).
  { intros d Hd.
    change (ParseInt.number 10 (d :: digits 10 rest))
      with (fold_left (fun a x => a * 10 + x) (digits 10 rest) (0 * 10 + d)).
    pose proof (number_grows 10 (digits 10 rest) (0 * 10 + d)
                  ltac:(lia) ltac:(lia) Hds). lia. }
  destruct Hcases as [->|[->|[->|[->|[->|[->|[->|[->| ->]]]]]]]];
    cbn [digits digit]; simpl; eexists; (split; [reflexivity|]); apply Hpos; lia.
Qed.

End RowFacts.

(** X9. A row whose status column starts, after white space, with a digit
    from 1 to 9 is never kept, whatever its other columns hold. *)
Theorem nonzero_status_excluded (line v rest : jsstring) (c : N) (st : store) :
  split COMMA line !! 7%nat = Some v ->
  trimStart v = c :: rest ->
  (49 <= c <= 57)%N ->
  row line st = (Normal tt, st, []).
Proof.
  intros Hv E Hc. apply row_dropped. intros [_ Hs].
  unfold Spec.parsed_status in Hs. rewrite Hv in Hs.
  destruct (parseInt_positive v rest c E Hc) as (z & Hz & Hpos).
  rewrite Hz in Hs. simpl in Hs. lia.
Qed.

Lemma nonzero_status_excluded_witness :
  row (str "Roe,Rick,12,Law,,Jurist,, 1,M,US,No") jane_snapshot
  = (Normal tt, jane_snapshot, []).
Proof.
  apply (nonzero_status_excluded (str "Roe,Rick,12,Law,,Jurist,, 1,M,US,No")
           (str " 1") [] 49%N jane_snapshot).
  - reflexivity.
  - reflexivity.
  - split; vm_compute; discriminate.
Defined.

(** X10. Missing trailing columns are defaults: a row of at most seven
    columns with a first name is kept, with status 0, empty gender and
    geography, and [recognizable] ['No']. *)
Theorem short_row_defaults (line v : jsstring) (st : store) :
  split COMMA line !! 1%nat = Some v ->
  trim v <> [] ->
  (length (split COMMA line) <= 7)%nat ->
  row line st
  = (Normal tt, with_db st (expertDatabase st ++ [expert_of_line line]), [])
  /\ status (expert_of_line line) = 0
  /\ gender (expert_of_line line) = []
  /\ geography (expert_of_line line) = []
  /\ recognizable (expert_of_line line) = str "No".
Proof.
  intros Hv Hne Hlen.
  assert (Hnone : forall i, (7 <= i)%nat -> split COMMA line !! i = None).
  { intros i Hi. apply lookup_ge_None. lia. }
  assert (Hret : Spec.retained line).
  { split.
    - unfold Spec.first_name. now rewrite Hv.
    - unfold Spec.parsed_status. now rewrite Hnone by lia. }
  split; [now apply row_kept|].
  unfold expert_of_line, expert_of_values; simpl. unfold column, column_int.
  rewrite !Hnone by lia. auto.
Qed.

Lemma short_row_defaults_witness :
  row (str "Doe, Jane ") initial_store
  = (Normal tt,
     with_db initial_store (expertDatabase initial_store ++ [expert_of_line (str "Doe, Jane ")]),
     [])
  /\ status (expert_of_line (str "Doe, Jane ")) = 0
  /\ gender (expert_of_line (str "Doe, Jane ")) = []
  /\ geography (expert_of_line (str "Doe, Jane ")) = []
  /\ recognizable (expert_of_line (str "Doe, Jane ")) = str "No".
Proof.
  apply (short_row_defaults (str "Doe, Jane ") (str " Jane ") initial_store).
  - reflexivity.
  - vm_compute. discriminate.
  - vm_compute. lia.
Defined.

(** ** Carriage returns *)

Section CarriageReturn.

Lemma digits_snoc_CR (radix : Z) (s : jsstring) :
  digits radix (s ++ [CR]) = digits radix s.
Proof.
  induction s as [|c r IH]; simpl; [reflexivity|].
  destruct (digit radix c); [now rewrite IH | reflexivity].
Qed.

(** Case analysis on a code unit: every value below 128, and the rest. *)
Ltac cases_N c :=
  let p := fresh "p" in
  destruct c as [|p];
  [|do 7 (try (destruct p as [p|p|]))].

Ltac close_parse :=
  cbn [app]; cbv beta iota; rewrite ?app_comm_cons, ?digits_snoc_CR; reflexivity.

(** [parseInt] does not see a carriage return at the end of its text. *)
Lemma parseInt_snoc_CR (v : jsstring) : parseInt (v ++ [CR]) = parseInt v.
Proof.
  unfold parseInt.
  destruct (trimStart v) as [|c r] eqn:E.
  - apply trimStart_nil in E.
    assert (E' : trimStart (v ++ [CR]) = []).
    { apply trimStart_nil, Forall_app. split; [exact E|]. now repeat constructor. }
    now rewrite E'.
  - rewrite trimStart_app by (rewrite E; discriminate). rewrite E. clear E v.
    change ((c :: r) ++ [CR]) with (c :: (r ++ [CR])).
    cases_N c; try close_parse.
    all: destruct r as [|c1 r1]; try close_parse.
    all: cases_N c1; try close_parse.
    all: destruct r1 as [|c2 r2]; try close_parse.
    all: cases_N c2; try close_parse.
Qed.

End CarriageReturn.

Section CarriageReturnRows.

Lemma split_snoc (sep c : N) (s : jsstring) :
  c <> sep -> split sep (s ++ [c]) = snoc_last c (split sep s).
Proof.
  intros Hc. induction s as [|x r IH]; simpl.
  - destruct (N.eqb_spec c sep); [contradiction | reflexivity].
  - pose proof (split_nonempty sep r) as Hne. rewrite IH.
    destruct (split sep r) as [|p [|q rest]]; [contradiction| |];
      destruct (x =? sep)%N; reflexivity.
Qed.

Lemma snoc_last_lookup (c : N) (pieces : list jsstring) (i : nat) :
  match pieces !! i, snoc_last c pieces !! i with
  | Some v, Some v' => v' = v \/ v' = v ++ [c]
  | None, None => True
  | _, _ => False
  end.
Proof.
  revert i. induction pieces as [|p [|q rest] IH]; intros i.
  - reflexivity.
  - destruct i as [|i]; simpl; [now right | reflexivity].
  - destruct i as [|i]; [now left|].
    change (match (q :: rest) !! i, snoc_last c (q :: rest) !! i with
            | Some v, Some v' => v' = v \/ v' = v ++ [c]
            | None, None => True
            | _, _ => False
            end).
    apply IH.
Qed.

Lemma column_snoc_CR (values : list jsstring) (i : nat) (dflt : jsstring) :
  column (snoc_last CR values) i dflt = column values i dflt.
Proof.
  unfold column. pose proof (snoc_last_lookup CR values i) as H.
  destruct (values !! i) as [v|], (snoc_last CR values !! i) as [v'|];
    try contradiction; [|reflexivity].
  destruct H as [-> | ->]; [reflexivity|]. now rewrite trim_snoc.
Qed.

Lemma column_int_snoc_CR (values : list jsstring) (i : nat) :
  column_int (snoc_last CR values) i = column_int values i.
Proof.
  unfold column_int. pose proof (snoc_last_lookup CR values i) as H.
  destruct (values !! i) as [v|], (snoc_last CR values !! i) as [v'|];
    try contradiction; [|reflexivity].
  destruct H as [-> | ->]; [reflexivity|]. now rewrite parseInt_snoc_CR.
Qed.

End CarriageReturnRows.

(** X11. A carriage return at the end of a line, as in a feed with CRLF
    line endings, changes nothing: the row is kept or dropped alike, with
    the same record. *)
Theorem carriage_return_ignored (line : jsstring) (st : store) :
  row (line ++ [CR]) st = row line st.
Proof.
  unfold row. rewrite trim_snoc by reflexivity.
  rewrite split_snoc by discriminate.
  assert (E : expert_of_values (snoc_last CR (split COMMA line))
              = expert_of_values (split COMMA line)).
  { unfold expert_of_values. now rewrite !column_snoc_CR, column_int_snoc_CR. }
  now rewrite E.
Qed.

(** ** The gateway *)

Import MoreExamples.

Section GatewayFacts.

Variable h : host.

Lemma gateway_throw (systemPrompt userMessage : value) (e : js_error) :
  gateway h systemPrompt userMessage = Throw e ->
  axios_post h CLAUDE_API_URL (claude_request systemPrompt userMessage) (claude_config h)
  = Throw e
  \/ exists data,
       axios_post h CLAUDE_API_URL (claude_request systemPrompt userMessage) (claude_config h)
       = Normal data
       /\ content_text data = Throw e.
Proof.
  unfold gateway. unfold_monad.
  destruct (axios_post h _ _ _) as [data|e']; [eauto | intros [= ->]; now left].
Qed.

Lemma gateway_trace_events (systemPrompt userMessage : value) :
  Forall (fun ev => ev <> EvDateNow /\ is_get ev = false)
    (gateway_trace h systemPrompt userMessage).
Proof.
  unfold gateway_trace. destruct (gateway h _ _); repeat constructor; discriminate.
Qed.

Lemma reply_of_status (c : completion (gmap jsstring value)) :
  status_code (reply_of c) = 200 \/ status_code (reply_of c) = 500.
Proof. destruct c; [now left | now right]. Qed.

Lemma destructure_normal (body : value) (key : jsstring) :
  body <> VUndefined -> body <> VNull ->
  exists v, destructure body key = Normal v.
Proof.
  intros H1 H2. destruct body; try contradiction; simpl; eauto.
  all: destruct (JsString.eqb key (str "length")); eauto.
Qed.

Lemma destructure_object (props : gmap jsstring value) (key : jsstring) (v : value) :
  props !! key = Some v -> destructure (VObj props) key = Normal v.
Proof. intros H. simpl. now rewrite H. Qed.

End GatewayFacts.

(** X12. The gateway posts once and leaves the store alone.  When the call
    fails, by rejection or because the answer has no [content[0].text] to
    read, it logs one line, the response data of the error when there is a
    truthy one and its message otherwise, and throws that same error on. *)
Theorem gateway_failure_logged (h : host) (systemPrompt userMessage : value) (st : store) :
  exists c,
    callClaude h systemPrompt userMessage st
    = (c, st,
       EvAxiosPost CLAUDE_API_URL (claude_request systemPrompt userMessage)
         (claude_config h)
       :: match c with
          | Normal _ => []
          | Throw e =>
              [EvConsoleError (str "Claude API error:")
                 (inl (if Js.truthy (err_response_data e)
                       then err_response_data e
                       else VStr (err_message e)))]
          end)
    /\ (forall e, c = Throw e ->
          axios_post h CLAUDE_API_URL (claude_request systemPrompt userMessage)
            (claude_config h) = Throw e
          \/ exists data,
               axios_post h CLAUDE_API_URL (claude_request systemPrompt userMessage)
                 (claude_config h) = Normal data
               /\ content_text data = Throw e).
Proof.
  exists (gateway h systemPrompt userMessage). split.
  - rewrite callClaude_run. unfold gateway_trace.
    destruct (gateway h systemPrompt userMessage); reflexivity.
  - intros e. apply gateway_throw.
Qed.

(** ** The handlers *)

(** X13. Given a body that is not [undefined] or [null], every handler
    replies: nothing thrown inside it escapes, and the status is 200, 400
    or 500. *)
Theorem handlers_always_reply (h : host) (body : value) (st : store) :
  body <> VUndefined ->
  body <> VNull ->
  (exists r, completion_of (phase1 h body st) = Normal r
             /\ (status_code r = 200 \/ status_code r = 400 \/ status_code r = 500))
  /\ (exists r, completion_of (phase2 h body st) = Normal r
                /\ (status_code r = 200 \/ status_code r = 400 \/ status_code r = 500))
  /\ (exists r, completion_of (phase3 h body st) = Normal r
                /\ (status_code r = 200 \/ status_code r = 400 \/ status_code r = 500)).
Proof.
  intros H1 H2.
  destruct (destructure_normal body (str "challenge") H1 H2) as (challenge & Hc).
  destruct (destructure_normal body (str "challengeType") H1 H2) as (challengeType & Hy).
  destruct (destructure_normal body (str "team") H1 H2) as (team & Ht).
  split; [|split].
  - destruct (Js.truthy challenge) eqn:E.
    + rewrite (phase1_run h _ _ st Hc E). eexists. split; [reflexivity|].
      destruct (reply_of_status
                  (parsed ← model_output h (VStr phase1_prompt) challenge;
                   mret (phase1_body parsed))) as [-> | ->]; auto.
    + rewrite (phase1_rejected h _ _ st Hc E). eexists. split; [reflexivity|]. auto.
  - destruct (Js.truthy challenge && Js.truthy challengeType) eqn:E.
    + destruct (fetch_returns h st) as (experts & st' & tr & Ef & _).
      rewrite (phase2_run h _ _ _ _ _ _ _ Hc Hy E Ef).
      destruct (phase2_message h challengeType challenge) as [message|e].
      * eexists. split; [reflexivity|].
        destruct (reply_of_status
                    (parsed ← model_output h (phase2_system experts) (VStr message);
                     mret (phase2_body parsed))) as [-> | ->]; auto.
      * eexists. split; [reflexivity|]. auto.
    + rewrite (phase2_rejected h _ _ _ st Hc Hy E). eexists. split; [reflexivity|]. auto.
  - destruct (Js.truthy challenge && Js.truthy team) eqn:E.
    + rewrite (phase3_run h _ _ _ st Hc Ht E).
      destruct (phase3_inputs h challenge team) as [[systemPrompt message]|e].
      * eexists. split; [reflexivity|].
        destruct (reply_of_status
                    (parsed ← model_output h systemPrompt message;
                     mret (phase3_body parsed))) as [-> | ->]; auto.
      * eexists. split; [reflexivity|]. auto.
    + rewrite (phase3_rejected h _ _ _ st Hc Ht E). eexists. split; [reflexivity|]. auto.
Qed.

Lemma handlers_always_reply_witness :
  (exists r, completion_of (phase1 host_overloaded (VArr []) initial_store) = Normal r
             /\ (status_code r = 200 \/ status_code r = 400 \/ status_code r = 500))
  /\ (exists r, completion_of (phase2 host_overloaded (VArr []) initial_store) = Normal r
                /\ (status_code r = 200 \/ status_code r = 400 \/ status_code r = 500))
  /\ (exists r, completion_of (phase3 host_overloaded (VArr []) initial_store) = Normal r
                /\ (status_code r = 200 \/ status_code r = 400 \/ status_code r = 500)).
Proof.
  apply (handlers_always_reply host_overloaded (VArr []) initial_store); discriminate.
Defined.

(** X14. Given [undefined] or [null] as body, every handler throws a
    TypeError at the destructuring, before its [try] block: it sends no
    reply, makes no call and leaves the store alone. *)
Theorem missing_body_throws (h : host) (body : value) (st : store) :
  body = VUndefined \/ body = VNull ->
  (exists e, phase1 h body st = (Throw e, st, []))
  /\ (exists e, phase2 h body st = (Throw e, st, []))
  /\ (exists e, phase3 h body st = (Throw e, st, [])).
Proof.
  intros [-> | ->]; repeat split; eexists; reflexivity.
Qed.

Lemma missing_body_throws_witness :
  (exists e, phase1 host_overloaded VUndefined jane_snapshot = (Throw e, jane_snapshot, []))
  /\ (exists e, phase2 host_overloaded VUndefined jane_snapshot = (Throw e, jane_snapshot, []))
  /\ (exists e, phase3 host_overloaded VUndefined jane_snapshot = (Throw e, jane_snapshot, [])).
Proof.
  apply (missing_body_throws host_overloaded VUndefined jane_snapshot).
  left. reflexivity.
Defined.

(** X15. Phases 1 and 3 never touch the directory: they leave the store as
    it is, read no clock and fetch nothing. *)
Theorem phases_1_3_leave_directory (h : host) (body : value) (st : store) :
  (store_of (phase1 h body st) = st
   /\ Forall (fun ev => ev <> EvDateNow /\ is_get ev = false)
        (trace_of (phase1 h body st)))
  /\ (store_of (phase3 h body st) = st
      /\ Forall (fun ev => ev <> EvDateNow /\ is_get ev = false)
           (trace_of (phase3 h body st))).
Proof.
  split.
  - destruct (phase1_cases h body st) as [(e & E)|[E|(c & _ & _ & E)]];
      rewrite E; unfold store_of, trace_of; simpl;
      (split; [reflexivity|]);
      first [apply gateway_trace_events | constructor].
  - destruct (phase3_cases h body st) as [(e & E)|[E|[(e & E)|(s & m & E)]]];
      rewrite E; unfold store_of, trace_of; simpl;
      (split; [reflexivity|]);
      first [apply gateway_trace_events | constructor].
Qed.

(** ** Failures inside the handlers *)

(** X16. When the post to the gateway is rejected, phase 1 replies with
    status 500 and the message of that error, after one post and one log
    line. *)
Theorem gateway_error_replied (h : host) (props : gmap jsstring value)
    (st : store) (challenge : value) (e : js_error) :
  props !! str "challenge" = Some challenge ->
  Js.truthy challenge = true ->
  axios_post h CLAUDE_API_URL (claude_request (VStr phase1_prompt) challenge)
    (claude_config h) = Throw e ->
  phase1 h (VObj props) st
  = (Normal {| status_code := 500;
               json := VObj {[ str "error" := VStr (err_message e) ]} |},
     st,
     [EvAxiosPost CLAUDE_API_URL (claude_request (VStr phase1_prompt) challenge)
        (claude_config h);
      EvConsoleError (str "Claude API error:")
        (inl (Js.or (err_response_data e) (VStr (err_message e))))]).
Proof.
  intros Hc Ht Hpost.
  rewrite (phase1_run h _ _ st (destructure_object _ _ _ Hc) Ht).
  unfold model_output, gateway_trace, gateway. unfold_monad. rewrite Hpost. simpl.
  unfold error_reply, Js.set. now rewrite insert_empty.
Qed.

Lemma gateway_error_replied_witness :
  phase1 host_overloaded body1 initial_store
  = (Normal {| status_code := 500;
               json := VObj {[ str "error" := VStr (err_message overloaded) ]} |},
     initial_store,
     [EvAxiosPost CLAUDE_API_URL (claude_request (VStr phase1_prompt) challenge_text)
        (claude_config host_overloaded);
      EvConsoleError (str "Claude API error:")
        (inl (Js.or (err_response_data overloaded) (VStr (err_message overloaded))))]).
Proof.
  apply (gateway_error_replied host_overloaded
           (Js.set ∅ (str "challenge") challenge_text) initial_store
           challenge_text overloaded).
  - vm_compute. reflexivity.
  - reflexivity.
  - reflexivity.
Defined.

(** X17. When the text of the model is not JSON, phase 1 replies with
    status 500 and the message of the error [JSON.parse] threw; the gateway
    call itself succeeded, so nothing is logged. *)
Theorem parse_error_replied (h : host) (props : gmap jsstring value)
    (st : store) (challenge data response : value) (text : jsstring) (e : js_error) :
  props !! str "challenge" = Some challenge ->
  Js.truthy challenge = true ->
  axios_post h CLAUDE_API_URL (claude_request (VStr phase1_prompt) challenge)
    (claude_config h) = Normal data ->
  content_text data = Normal response ->
  to_string h response = Normal text ->
  JSON_parse h text = Throw e ->
  phase1 h (VObj props) st
  = (Normal {| status_code := 500;
               json := VObj {[ str "error" := VStr (err_message e) ]} |},
     st,
     [EvAxiosPost CLAUDE_API_URL (claude_request (VStr phase1_prompt) challenge)
        (claude_config h)]).
Proof.
  intros Hc Ht Hpost Hcontent Htext Hparse.
  rewrite (phase1_run h _ _ st (destructure_object _ _ _ Hc) Ht).
  unfold model_output, gateway_trace, gateway, json_parse. unfold_monad.
  rewrite Hpost, Hcontent, Htext, Hparse. simpl.
  unfold error_reply, Js.set. now rewrite insert_empty.
Qed.

Lemma parse_error_replied_witness :
  phase1 host_prose body1 initial_store
  = (Normal {| status_code := 500;
               json := VObj {[ str "error" := VStr (err_message not_json) ]} |},
     initial_store,
     [EvAxiosPost CLAUDE_API_URL (claude_request (VStr phase1_prompt) challenge_text)
        (claude_config host_prose)]).
Proof.
  apply (parse_error_replied host_prose
           (Js.set ∅ (str "challenge") challenge_text) initial_store
           challenge_text (claude_answer (str "Sure! Here is the team."))
           (VStr (str "Sure! Here is the team.")) (str "Sure! Here is the team.")
           not_json).
  - vm_compute. reflexivity.
  - reflexivity.
  - reflexivity.
  - vm_compute. reflexivity.
  - reflexivity.
  - reflexivity.
Defined.

(** X18. An answer of the messages endpoint without a first content block
    (no [content], or an empty array) makes the gateway throw a TypeError;
    phase 1 replies with status 500 and the message of that error, which is
    also the line logged. *)
Theorem missing_content_replied (h : host) (props answer : gmap jsstring value)
    (st : store) (challenge : value) :
  props !! str "challenge" = Some challenge ->
  Js.truthy challenge = true ->
  axios_post h CLAUDE_API_URL (claude_request (VStr phase1_prompt) challenge)
    (claude_config h) = Normal (VObj answer) ->
  answer !! str "content" = None \/ answer !! str "content" = Some (VArr []) ->
  exists message,
    message <> []
    /\ phase1 h (VObj props) st
       = (Normal {| status_code := 500;
                    json := VObj {[ str "error" := VStr message ]} |},
          st,
          [EvAxiosPost CLAUDE_API_URL (claude_request (VStr phase1_prompt) challenge)
             (claude_config h);
           EvConsoleError (str "Claude API error:") (inl (VStr message))]).
Proof.
  intros Hc Ht Hpost Hcontent.
  rewrite (phase1_run h _ _ st (destructure_object _ _ _ Hc) Ht).
  unfold model_output, gateway_trace, gateway, content_text. unfold_monad.
  rewrite Hpost. simpl.
  destruct Hcontent as [-> | ->]; simpl; eexists;
    (split; [|unfold error_reply, Js.set; rewrite insert_empty; reflexivity]);
    discriminate.
Qed.

Lemma missing_content_replied_witness :
  exists message,
    message <> []
    /\ phase1 host_no_content body1 initial_store
       = (Normal {| status_code := 500;
                    json := VObj {[ str "error" := VStr message ]} |},
          initial_store,
          [EvAxiosPost CLAUDE_API_URL (claude_request (VStr phase1_prompt) challenge_text)
             (claude_config host_no_content);
           EvConsoleError (str "Claude API error:") (inl (VStr message))]).
Proof.
  apply (missing_content_replied host_no_content
           (Js.set ∅ (str "challenge") challenge_text)
           (Js.set ∅ (str "content") (VArr [])) initial_store challenge_text).
  - vm_compute. reflexivity.
  - reflexivity.
  - reflexivity.
  - right. vm_compute. reflexivity.
Defined.

(** X19. Output of the model that is valid JSON but [null], a boolean or a
    number is accepted: phase 1 replies with status 200 and a body that
    holds [phase: 1] and nothing else. *)
Theorem primitive_output_accepted (h : host) (props : gmap jsstring value)
    (st : store) (challenge data response parsed : value) (text : jsstring) :
  props !! str "challenge" = Some challenge ->
  Js.truthy challenge = true ->
  axios_post h CLAUDE_API_URL (claude_request (VStr phase1_prompt) challenge)
    (claude_config h) = Normal data ->
  content_text data = Normal response ->
  to_string h response = Normal text ->
  JSON_parse h text = Normal parsed ->
  match parsed with VNull | VBool _ | VNum _ => True | _ => False end ->
  phase1 h (VObj props) st
  = (Normal {| status_code := 200; json := VObj {[ str "phase" := num 1 ]} |},
     st,
     [EvAxiosPost CLAUDE_API_URL (claude_request (VStr phase1_prompt) challenge)
        (claude_config h)]).
Proof.
  intros Hc Ht Hpost Hcontent Htext Hparse Hprim.
  rewrite (phase1_run h _ _ st (destructure_object _ _ _ Hc) Ht).
  unfold model_output, gateway_trace, gateway, json_parse. unfold_monad.
  rewrite Hpost, Hcontent, Htext, Hparse. simpl.
  assert (E : phase1_body parsed = {[ str "phase" := num 1 ]}).
  { unfold phase1_body, Js.spread, Js.set.
    destruct parsed; try contradiction; simpl;
      now rewrite (left_id_L ∅ (∪)), insert_empty. }
  unfold ok_reply. now rewrite E.
Qed.

Lemma primitive_output_accepted_witness :
  phase1 host_null body1 initial_store
  = (Normal {| status_code := 200; json := VObj {[ str "phase" := num 1 ]} |},
     initial_store,
     [EvAxiosPost CLAUDE_API_URL (claude_request (VStr phase1_prompt) challenge_text)
        (claude_config host_null)]).
Proof.
  apply (primitive_output_accepted host_null
           (Js.set ∅ (str "challenge") challenge_text) initial_store
           challenge_text (claude_answer (str "null")) (VStr (str "null")) VNull
           (str "null")).
  - vm_compute. reflexivity.
  - reflexivity.
  - reflexivity.
  - vm_compute. reflexivity.
  - reflexivity.
  - reflexivity.
  - exact I.
Defined.

(** ** Phase 2 and the directory *)

(** X20. An accepted phase 2 request reads the directory first, whatever
    happens afterwards: its trace starts with the trace of a directory
    read, and the store it leaves is the one the read leaves. *)
Theorem phase2_reads_directory_first (h : host) (props : gmap jsstring value)
    (st : store) (challenge challengeType : value) :
  props !! str "challenge" = Some challenge ->
  props !! str "challengeType" = Some challengeType ->
  Js.truthy challenge = true ->
  Js.truthy challengeType = true ->
  store_of (phase2 h (VObj props) st) = store_of (fetchExpertDatabase h st)
  /\ exists rest,
       trace_of (phase2 h (VObj props) st)
       = trace_of (fetchExpertDatabase h st) ++ rest.
Proof.
  intros Hc Hy Tc Ty.
  destruct (fetch_returns h st) as (experts & st' & tr & Ef & _).
  rewrite (phase2_run h _ _ _ st st' experts tr
             (destructure_object _ _ _ Hc) (destructure_object _ _ _ Hy)
             ltac:(now rewrite Tc, Ty) Ef).
  rewrite Ef. unfold store_of, trace_of.
  destruct (phase2_message h challengeType challenge); simpl.
  - split; [reflexivity|]. eauto.
  - split; [reflexivity|]. exists []. now rewrite app_nil_r.
Qed.

Lemma phase2_reads_directory_first_witness :
  store_of (phase2 host_overloaded body2 initial_store)
  = store_of (fetchExpertDatabase host_overloaded initial_store)
  /\ exists rest,
       trace_of (phase2 host_overloaded body2 initial_store)
       = trace_of (fetchExpertDatabase host_overloaded initial_store) ++ rest.
Proof.
  apply (phase2_reads_directory_first host_overloaded
           (Js.set (Js.set ∅ (str "challenge") challenge_text)
              (str "challengeType") (VStr (str "Decision")))
           initial_store challenge_text (VStr (str "Decision"))).
  - vm_compute. reflexivity.
  - vm_compute. reflexivity.
  - reflexivity.
  - reflexivity.
Defined.

(** X21. A failed fetch of the sheet does not fail phase 2: the error is
    logged and the gateway is still called, with the pool built from the
    directory cached before. *)
Theorem phase2_survives_fetch_failure (h : host) (props : gmap jsstring value)
    (st : store) (c t : jsstring) (e : js_error) :
  props !! str "challenge" = Some (VStr c) ->
  props !! str "challengeType" = Some (VStr t) ->
  c <> [] ->
  t <> [] ->
  fresh h st = false ->
  feed_lines h = Throw e ->
  exists r log,
    phase2 h (VObj props) st
    = (Normal r, st,
       [EvDateNow; EvAxiosGet csvUrl;
        EvConsoleError (str "Error fetching expert database:") (inr e);
        EvAxiosPost CLAUDE_API_URL
          (claude_request
             (VStr (phase2_prompt (join [LF] (List.map expert_line (expertDatabase st)))))
             (VStr (str "Challenge type: " ++ t ++ [LF] ++ str "Challenge: " ++ c)))
          (claude_config h)]
       ++ log)
    /\ status_code r <> 400.
Proof.
  intros Hc Hy Nc Nt Hf Hl.
  assert (Tc : Js.truthy (VStr c) = true) by (destruct c; [contradiction | reflexivity]).
  assert (Ty : Js.truthy (VStr t) = true) by (destruct t; [contradiction | reflexivity]).
  rewrite (phase2_run h _ _ _ st st (expertDatabase st) _
             (destructure_object _ _ _ Hc) (destructure_object _ _ _ Hy)
             ltac:(now rewrite Tc, Ty) (fetch_failure h st e Hf Hl)).
  unfold phase2_message. unfold_monad. simpl.
  unfold gateway_trace, phase2_system.
  eexists _, _. split; [reflexivity|]. apply reply_of_not_400.
Qed.

Lemma phase2_survives_fetch_failure_witness :
  exists r log,
    phase2 host_offline body2 jane_snapshot
    = (Normal r, jane_snapshot,
       [EvDateNow; EvAxiosGet csvUrl;
        EvConsoleError (str "Error fetching expert database:") (inr network_error);
        EvAxiosPost CLAUDE_API_URL
          (claude_request
             (VStr (phase2_prompt
                      (join [LF] (List.map expert_line (expertDatabase jane_snapshot)))))
             (VStr (str "Challenge type: " ++ str "Decision" ++ [LF]
                    ++ str "Challenge: " ++ str "Should I change jobs?")))
          (claude_config host_offline)]
       ++ log)
    /\ status_code r <> 400.
Proof.
  apply (phase2_survives_fetch_failure host_offline
           (Js.set (Js.set ∅ (str "challenge") challenge_text)
              (str "challengeType") (VStr (str "Decision")))
           jane_snapshot (str "Should I change jobs?") (str "Decision") network_error).
  - vm_compute. reflexivity.
  - vm_compute. reflexivity.
  - discriminate.
  - discriminate.
  - reflexivity.
  - reflexivity.
Defined.

Section Pool.

Lemma split_join (lines : list jsstring) :
  lines <> [] ->
  Forall (Forall (fun c => c <> LF)) lines ->
  split LF (join [LF] lines) = lines.
Proof.
  induction lines as [|p [|q rest] IH]; intros Hne Hall.
  - contradiction.
  - simpl. inversion Hall; subst. now apply split_no_sep.
  - inversion Hall; subst.
    change (join [LF] (p :: q :: rest)) with (p ++ LF :: join [LF] (q :: rest)).
    rewrite split_app, split_no_sep by assumption.
    now rewrite IH.
Qed.

Lemma expert_line_no_LF (e : expert) :
  Forall clean (attributes e) -> Forall (fun c => c <> LF) (expert_line e).
Proof.
  unfold attributes, expert_line. intros H.
  repeat match goal with
         | H : Forall _ (_ :: _) |- _ => inversion H; subst; clear H
         end.
  assert (Hc : forall s, clean s -> Forall (fun c => c <> LF) s).
  { intros s [_ Hs]. eapply Forall_impl; [exact Hs|]. now intros c [_ ?]. }
  repeat (apply Forall_app; split); auto; repeat constructor; discriminate.
Qed.

End Pool.

(** X22. The pool of the phase 2 prompt has one line per expert: for a
    non-empty directory of a reachable store, splitting the pool at its
    line feeds gives back the summaries of the experts, in order. *)
Theorem expert_pool_lines (st : store) :
  reachable st ->
  expertDatabase st <> [] ->
  split LF (join [LF] (List.map expert_line (expertDatabase st)))
  = List.map expert_line (expertDatabase st).
Proof.
  intros Hr Hne. apply split_join.
  - destruct (expertDatabase st); [contradiction | discriminate].
  - pose proof (reachable_directory _ directory_clean st Hr) as H.
    apply Forall_forall. intros l Hl. apply list_elem_of_In, in_map_iff in Hl.
    destruct Hl as (e & <- & He). apply expert_line_no_LF.
    rewrite Forall_forall in H. apply list_elem_of_In in He. now apply H.
Qed.

Lemma expert_pool_lines_witness :
  split LF (join [LF] (List.map expert_line
       (expertDatabase (store_of (fetchExpertDatabase host_at_2000 initial_store)))))
  = List.map expert_line
      (expertDatabase (store_of (fetchExpertDatabase host_at_2000 initial_store))).
Proof.
  apply (expert_pool_lines (store_of (fetchExpertDatabase host_at_2000 initial_store))).
  - apply reach_fetch. exact reach_initial.
  - vm_compute. discriminate.
Defined.

(** ** Phase 3 and the team *)

Section Team.

Lemma names_of_null (elems : list value) :
  In VNull elems ->
  exists e, map_completion (fun x => Js.get x (str "name")) elems = Throw e.
Proof.
  induction elems as [|x rest IH]; intros Hin; [contradiction|].
  destruct Hin as [-> | Hin]; [simpl; eauto|].
  destruct (IH Hin) as (e & He). simpl. rewrite He.
  destruct (Js.get x (str "name")); eauto.
Qed.

End Team.

(** X23. A truthy [team] that is not an array, or an array with a [null]
    member, is neither rejected with 400 nor sent to the model: phase 3
    replies with status 500 without calling the gateway. *)
Theorem malformed_team_replied (h : host) (props : gmap jsstring value)
    (st : store) (challenge team : value) :
  props !! str "challenge" = Some challenge ->
  props !! str "team" = Some team ->
  Js.truthy challenge = true ->
  Js.truthy team = true ->
  (forall elems, team <> VArr elems) \/ (exists elems, team = VArr elems /\ In VNull elems) ->
  exists message,
    phase3 h (VObj props) st
    = (Normal {| status_code := 500;
                 json := VObj {[ str "error" := VStr message ]} |},
       st, []).
Proof.
  intros Hc Ht Tc Tt Hbad.
  rewrite (phase3_run h _ _ _ st (destructure_object _ _ _ Hc)
             (destructure_object _ _ _ Ht) ltac:(now rewrite Tc, Tt)).
  assert (Hnames : exists e, team_names team = Throw e).
  { destruct Hbad as [Hna | (elems & -> & Hin)].
    - destruct team; simpl; eauto. now elim (Hna elems).
    - now apply names_of_null. }
  destruct Hnames as (e & He). unfold phase3_inputs. unfold_monad. rewrite He.
  exists (err_message e). unfold error_reply, Js.set. now rewrite insert_empty.
Qed.

Lemma malformed_team_replied_witness :
  exists message,
    phase3 twelve_host (body3 (VStr (str "Ada, Grace"))) initial_store
    = (Normal {| status_code := 500;
                 json := VObj {[ str "error" := VStr message ]} |},
       initial_store, []).
Proof.
  apply (malformed_team_replied twelve_host
           (Js.set (Js.set ∅ (str "challenge") challenge_text)
              (str "team") (VStr (str "Ada, Grace")))
           initial_store challenge_text (VStr (str "Ada, Grace"))).
  - vm_compute. reflexivity.
  - vm_compute. reflexivity.
  - reflexivity.
  - reflexivity.
  - left. discriminate.
Defined.

Section TeamNames.

Variable h : host.

Lemma names_of_members (elems : list value) (names : list jsstring) :
  Forall2 (fun el n => exists o, el = VObj o /\ o !! str "name" = Some (VStr n))
    elems names ->
  map_completion (fun x => Js.get x (str "name")) elems = Normal (VStr <$> names).
Proof.
  induction 1 as [|el n elems names (o & -> & Hn) _ IH]; [reflexivity|].
  simpl. rewrite Hn. simpl. now rewrite IH.
Qed.

Lemma join_of_strings (sep : jsstring) (names : list jsstring) :
  array_join h sep (VStr <$> names) = Normal (join sep names).
Proof.
  unfold array_join.
  assert (E : map_completion
                (fun x => match x with
                          | VUndefined | VNull => Normal []
                          | _ => to_string h x
                          end) (VStr <$> names) = Normal names).
  { induction names as [|n rest IH]; [reflexivity|].
    change (VStr <$> n :: rest) with (VStr n :: (VStr <$> rest)).
    simpl. first [now rewrite IH | unfold fmap in *; now rewrite IH]. }
  now rewrite E.
Qed.

End TeamNames.

(** X24. Of the members of a team only the names are used: for a team of
    objects with string names and a challenge that is a string, phase 3
    posts once, with the names joined by a comma and a space in the system
    prompt and the challenge after ['Challenge: '] as the user message. *)
Theorem team_names_joined (h : host) (props : gmap jsstring value) (st : store)
    (c : jsstring) (elems : list value) (names : list jsstring) :
  props !! str "challenge" = Some (VStr c) ->
  c <> [] ->
  props !! str "team" = Some (VArr elems) ->
  Forall2 (fun el n => exists o, el = VObj o /\ o !! str "name" = Some (VStr n))
    elems names ->
  exists r log,
    phase3 h (VObj props) st
    = (Normal r, st,
       EvAxiosPost CLAUDE_API_URL
         (claude_request (VStr (phase3_prompt (join (str ", ") names)))
            (VStr (str "Challenge: " ++ c)))
         (claude_config h)
       :: log)
    /\ posts log = 0%nat.
Proof.
  intros Hc Nc Ht Hnames.
  assert (Tc : Js.truthy (VStr c) = true) by (destruct c; [contradiction | reflexivity]).
  rewrite (phase3_run h _ _ _ st (destructure_object _ _ _ Hc)
             (destructure_object _ _ _ Ht) ltac:(now rewrite Tc)).
  unfold phase3_inputs, team_names, phase3_message.
  rewrite (names_of_members elems names Hnames).
  unfold mbind at 1, completion_bind. rewrite join_of_strings.
  unfold_monad. simpl. unfold gateway_trace.
  eexists _, _. split; [reflexivity|].
  destruct (gateway h _ _); reflexivity.
Qed.

Lemma team_names_joined_witness :
  exists r log,
    phase3 twelve_host (body3 ada_team) initial_store
    = (Normal r, initial_store,
       EvAxiosPost CLAUDE_API_URL
         (claude_request (VStr (phase3_prompt (join (str ", ") [str "Ada Lovelace"])))
            (VStr (str "Challenge: " ++ str "Should I change jobs?")))
         (claude_config twelve_host)
       :: log)
    /\ posts log = 0%nat.
Proof.
  apply (team_names_joined twelve_host
           (Js.set (Js.set ∅ (str "challenge") challenge_text) (str "team") ada_team)
           initial_store (str "Should I change jobs?")
           [VObj (Js.set ∅ (str "name") (VStr (str "Ada Lovelace")))]
           [str "Ada Lovelace"]).
  - vm_compute. reflexivity.
  - discriminate.
  - vm_compute. reflexivity.
  - repeat constructor. eexists. split; [reflexivity|]. vm_compute. reflexivity.
Defined.

(** X25. The presence checks are truthiness checks: for a body that is an
    object, phase 1 replies with status 400 exactly when [challenge] is
    falsy (missing, [null], [false], zero or the empty string), and phase 2
    exactly when [challenge] or [challengeType] is; arrays and objects in
    these fields pass. *)
Theorem rejected_iff_falsy (h : host) (props : gmap jsstring value) (st : store) :
  (exists r, completion_of (phase1 h (VObj props) st) = Normal r
             /\ (status_code r = 400
                 <-> Js.truthy (default VUndefined (props !! str "challenge")) = false))
  /\ (exists r, completion_of (phase2 h (VObj props) st) = Normal r
                /\ (status_code r = 400
                    <-> Js.truthy (default VUndefined (props !! str "challenge")) = false
                        \/ Js.truthy (default VUndefined (props !! str "challengeType"))
                           = false)).
Proof.
  assert (Hc : destructure (VObj props) (str "challenge")
               = Normal (default VUndefined (props !! str "challenge"))) by reflexivity.
  assert (Hy : destructure (VObj props) (str "challengeType")
               = Normal (default VUndefined (props !! str "challengeType"))) by reflexivity.
  split.
  - destruct (Js.truthy (default VUndefined (props !! str "challenge"))) eqn:E.
    + rewrite (phase1_run h _ _ st Hc E). eexists. split; [reflexivity|].
      split; [intros H400; now apply reply_of_not_400 in H400 | discriminate].
    + rewrite (phase1_rejected h _ _ st Hc E). eexists. split; [reflexivity|].
      split; reflexivity.
  - destruct (Js.truthy (default VUndefined (props !! str "challenge"))
              && Js.truthy (default VUndefined (props !! str "challengeType"))) eqn:E.
    + destruct (fetch_returns h st) as (experts & st' & tr & Ef & _).
      rewrite (phase2_run h _ _ _ _ _ _ _ Hc Hy E Ef).
      apply andb_true_iff in E as [E1 E2]. rewrite E1, E2.
      destruct (phase2_message h _ _).
      * eexists. split; [reflexivity|].
        split; [intros H400; now apply reply_of_not_400 in H400
               | intros [?|?]; discriminate].
      * eexists. split; [reflexivity|].
        split; [discriminate | intros [?|?]; discriminate].
    + rewrite (phase2_rejected h _ _ _ st Hc Hy E). eexists. split; [reflexivity|].
      split; [intros _; now apply andb_false_iff in E | reflexivity].
Qed.
